(** * t0code: a rule-based daily trading signal generator

    Shallow embedding of [src/t0code.py] (class [TradingSystem]) and the
    properties of its indicator engine, signal generator and position
    tracker.

    Number model.  The program computes on IEEE-754 doubles (numpy
    [float64]).  Here a double is an exact rational, or one of the two
    infinities, or NaN: arithmetic is exact (no rounding error of the binary
    representation), while the special values behave as numpy's do
    (division by zero gives an infinity or NaN and raises nothing, every
    comparison with NaN is false).  The two zeros are identified, which only
    affects the sign of an infinity obtained by dividing by zero. *)

From Stdlib Require Import ZArith QArith Qround Qreduction Lqa Lia.
From Stdlib Require Import Bool String List Sorted.
Import ListNotations.

Local Open Scope Q_scope.

(* ===================================================================== *)
(** ** Doubles *)
(* ===================================================================== *)

Inductive fnum : Type :=
| NaN
| Inf (neg : bool)
| Fin (q : Q).

Definition Qltb (a b : Q) : bool :=
  match Qcompare a b with Lt => true | _ => false end.

Definition Qzerob (a : Q) : bool :=
  match Qcompare a 0 with Eq => true | _ => false end.

Definition fadd (x y : fnum) : fnum :=
  match x, y with
  | NaN, _ | _, NaN => NaN
  | Inf s, Inf t => if Bool.eqb s t then Inf s else NaN
  | Inf s, Fin _ => Inf s
  | Fin _, Inf t => Inf t
  | Fin a, Fin b => Fin (Qred (a + b))
  end.

Definition fsub (x y : fnum) : fnum :=
  match x, y with
  | NaN, _ | _, NaN => NaN
  | Inf s, Inf t => if Bool.eqb s t then NaN else Inf s
  | Inf s, Fin _ => Inf s
  | Fin _, Inf t => Inf (negb t)
  | Fin a, Fin b => Fin (Qred (a - b))
  end.

Definition fmul (x y : fnum) : fnum :=
  match x, y with
  | NaN, _ | _, NaN => NaN
  | Inf s, Inf t => Inf (xorb s t)
  | Inf s, Fin b => if Qzerob b then NaN else Inf (xorb s (Qltb b 0))
  | Fin a, Inf t => if Qzerob a then NaN else Inf (xorb (Qltb a 0) t)
  | Fin a, Fin b => Fin (Qred (a * b))
  end.

Definition fdiv (x y : fnum) : fnum :=
  match x, y with
  | NaN, _ | _, NaN => NaN
  | Inf _, Inf _ => NaN
  | Inf s, Fin b => Inf (xorb s (Qltb b 0))
  | Fin _, Inf _ => Fin 0
  | Fin a, Fin b =>
      if Qzerob b then (if Qzerob a then NaN else Inf (Qltb a 0))
      else Fin (Qred (a / b))
  end.

(** [x < y]; false as soon as one side is NaN. *)
Definition flt (x y : fnum) : bool :=
  match x, y with
  | NaN, _ | _, NaN => false
  | Inf s, Inf t => s && negb t
  | Inf s, Fin _ => s
  | Fin _, Inf t => negb t
  | Fin a, Fin b => Qltb a b
  end.

Definition fgt (x y : fnum) : bool := flt y x.

(** [x <= y], used in statements only. *)
Definition fle (x y : fnum) : bool :=
  match x, y with
  | NaN, _ | _, NaN => false
  | _, _ => negb (flt y x)
  end.

Definition is_nan (x : fnum) : bool :=
  match x with NaN => true | _ => false end.

(** Python's two-argument [min(a, b)]: [b] when [b < a], else [a]. *)
Definition py_min (a b : fnum) : fnum := if flt b a then b else a.

(** Round to the nearest integer, ties to the even one. *)
Definition rint (q : Q) : Z :=
  let f := Qfloor q in
  match Qcompare (q - inject_Z f) (1 # 2) with
  | Lt => f
  | Gt => (f + 1)%Z
  | Eq => if Z.even f then f else (f + 1)%Z
  end.

(** [round(x, ndigits)] on a double: scale by [10^ndigits], round to the
    nearest integer, scale back. *)
Definition py_round (x : fnum) (ndigits : nat) : fnum :=
  match x with
  | Fin q =>
      let p := inject_Z (10 ^ Z.of_nat ndigits) in
      Fin (Qred (inject_Z (rint (q * p)) / p))
  | _ => x
  end.

(* ===================================================================== *)
(** ** Data model *)
(* ===================================================================== *)

(** One row of the provider's daily frame.  Market data are finite
    numbers. *)
Record Bar : Type := {
  date : Z;
  open : Q;
  high : Q;
  low : Q;
  close : Q;
  volume : Q
}.

(** A row of the frame after [calculate_indicators]: the bar and the derived
    columns, each of which may hold NaN. *)
Record IndicatorRow : Type := {
  bar : Bar;
  MA5 : fnum;
  MA20 : fnum;
  MA60 : fnum;
  ATR : fnum;
  RSI : fnum;
  Pivot : fnum;
  S1 : fnum;
  R1 : fnum
}.

Inductive Action : Type := buy | sell | hold.

(** The dict returned by [generate_daily_signal]: ['action'] and ['price']
    are always present, the other keys only in some branches. *)
Record Signal : Type := {
  action : Action;
  price : fnum;
  stop_loss : option fnum;
  target : option fnum;
  reason : option string
}.

(** An entry of [trade_log]. *)
Record Trade : Type := {
  trade_datetime : Z;
  trade_action : Action;
  trade_price : fnum;
  trade_position : Z
}.

(** The attributes of a [TradingSystem] object; [None] is Python's [None]. *)
Record TradingSystem : Type := {
  position : Z;
  last_trade_price : option fnum;
  trade_log : list Trade
}.

Inductive PyExc : Type :=
| IndexError
| TypeError
| KeyError (key : string)
| FetchError.

Inductive result (A : Type) : Type :=
| Ok (a : A)
| Raise (e : PyExc).
Arguments Ok {A} a.
Arguments Raise {A} e.

Definition bind {A B : Type} (r : result A) (k : A -> result B) : result B :=
  match r with
  | Ok a => k a
  | Raise e => Raise e
  end.

Notation "x <- r ;; k" := (bind r (fun x => k))
  (at level 61, r at next level, right associativity).

(** [TradingSystem.__init__] *)
Definition init : TradingSystem :=
  {| position := 0; last_trade_price := None; trade_log := [] |}.

(* ===================================================================== *)
(** ** Indicator engine *)
(* ===================================================================== *)

(** The last [k] elements. *)
Definition lastn {A : Type} (k : nat) (l : list A) : list A :=
  skipn (length l - k) l.

Definition sumQ (w : list Q) : Q := fold_right Qplus 0 w.

(** The aggregations of a window: [mean()], [max()], [min()]. *)
Definition mean (w : list Q) : Q :=
  Qred (sumQ w / inject_Z (Z.of_nat (length w))).

Definition maxQ (w : list Q) : Q :=
  match w with
  | [] => 0
  | x :: tl => fold_left (fun m y => if Qltb m y then y else m) tl x
  end.

Definition minQ (w : list Q) : Q :=
  match w with
  | [] => 0
  | x :: tl => fold_left (fun m y => if Qltb y m then y else m) tl x
  end.

(** [s.rolling(k).agg()]: row [i] aggregates rows [i-k+1 .. i] and is NaN
    while fewer than [k] rows have been seen. *)
Definition rolling (k : nat) (agg : list Q -> Q) (xs : list Q) : list fnum :=
  map (fun i => if (k <=? S i)%nat
                then Fin (agg (lastn k (firstn (S i) xs)))
                else NaN)
      (seq 0 (length xs)).

Fixpoint zip_with {A B C : Type} (f : A -> B -> C) (l : list A) (m : list B)
  : list C :=
  match l, m with
  | a :: l', b :: m' => f a b :: zip_with f l' m'
  | _, _ => []
  end.

(** [s.diff()]: the first row has no predecessor. *)
Fixpoint diff_from (prev : Q) (xs : list Q) : list (option Q) :=
  match xs with
  | [] => []
  | x :: tl => Some (x - prev) :: diff_from x tl
  end.

Definition diff (xs : list Q) : list (option Q) :=
  match xs with
  | [] => []
  | x :: tl => None :: diff_from x tl
  end.

(** [delta.where(delta > 0, 0)]; the missing first entry fails the test. *)
Definition gain_of (d : option Q) : Q :=
  match d with
  | Some q => if Qltb 0 q then q else 0
  | None => 0
  end.

(** [-delta.where(delta < 0, 0)] *)
Definition loss_of (d : option Q) : Q :=
  match d with
  | Some q => if Qltb q 0 then - q else 0
  | None => 0
  end.

(** [s.ewm(alpha=a).mean()] with pandas' defaults ([adjust=True]): row [t] is
    the average of rows [0..t] with weights [(1-a)^(t-i)].  [num] and [den]
    are the weighted sum and the sum of weights so far. *)
Fixpoint ewm_from (a num den : Q) (xs : list Q) : list Q :=
  match xs with
  | [] => []
  | x :: tl =>
      let num' := Qred (x + (1 - a) * num) in
      let den' := Qred (1 + (1 - a) * den) in
      Qred (num' / den') :: ewm_from a num' den' tl
  end.

Definition ewm_mean (a : Q) (xs : list Q) : list Q := ewm_from a 0 0 xs.

Definition alpha : Q := 1 / 14.

(** [gain.ewm(alpha=1/14).mean()] and [loss.ewm(alpha=1/14).mean()] *)
Definition avg_gain (closes : list Q) : list Q :=
  ewm_mean alpha (map gain_of (diff closes)).

Definition avg_loss (closes : list Q) : list Q :=
  ewm_mean alpha (map loss_of (diff closes)).

(** [100 - (100 / (1 + (g / l)))].  A zero [l] with a positive [g] gives an
    infinite quotient, whatever its sign, and then 100. *)
Definition rsi_of (g l : Q) : fnum :=
  fsub (Fin 100) (fdiv (Fin 100) (fadd (Fin 1) (fdiv (Fin g) (Fin l)))).

(** [(df['high'] + df['low'] + df['close']) / 3], as the exact quotient.  The
    double the source stores is this value up to the rounding of its three
    operations, which the number model leaves out: nothing below relies on
    how the pivot compares with the bar's own prices. *)
Definition pivot_of (b : Bar) : fnum :=
  fdiv (fadd (fadd (Fin (high b)) (Fin (low b))) (Fin (close b))) (Fin 3).

(** [calculate_indicators]: the derived columns, then the rows. *)
Definition calculate_indicators (df : list Bar) : list IndicatorRow :=
  let closes := map close df in
  let MA5_ := rolling 5 mean closes in
  let MA20_ := rolling 20 mean closes in
  let MA60_ := rolling 60 mean closes in
  let ATR_ := zip_with fsub (rolling 14 maxQ (map high df))
                            (rolling 14 minQ (map low df)) in
  let RSI_ := zip_with rsi_of (avg_gain closes) (avg_loss closes) in
  map (fun ib : nat * Bar =>
         let (i, b) := ib in
         let pivot := pivot_of b in
         {| bar := b;
            MA5 := nth i MA5_ NaN;
            MA20 := nth i MA20_ NaN;
            MA60 := nth i MA60_ NaN;
            ATR := nth i ATR_ NaN;
            RSI := nth i RSI_ NaN;
            Pivot := pivot;
            S1 := fsub (fmul (Fin 2) pivot) (Fin (high b));
            R1 := fsub (fmul (Fin 2) pivot) (Fin (low b)) |})
      (combine (seq 0 (length df)) df).

(* ===================================================================== *)
(** ** Signal generator *)
(* ===================================================================== *)

(** [stock_data.iloc[-1]] *)
Fixpoint iloc_last {A : Type} (l : list A) : result A :=
  match l with
  | [] => Raise IndexError
  | [x] => Ok x
  | _ :: tl => iloc_last tl
  end.

(** [latest['MA5'] > latest['MA20'] > latest['MA60']] *)
Definition trend_up (latest : IndicatorRow) : bool :=
  fgt (MA5 latest) (MA20 latest) && fgt (MA20 latest) (MA60 latest).

Definition trend_down (latest : IndicatorRow) : bool :=
  flt (MA5 latest) (MA20 latest) && flt (MA20 latest) (MA60 latest).

Definition take_profit_reason : string := "止盈/超买".
Definition stop_loss_reason : string := "止损".
Definition hold_reason : string := "持仓观望".

(** [generate_daily_signal].  The index frame and the previous row are not
    read by the source and are left out; the downward trend and the ATR
    factor are computed and not read either.  In the holding state the
    subtraction [latest['close'] - self.last_trade_price] raises [TypeError]
    when the attribute is [None]. *)
Definition generate_daily_signal (self : TradingSystem)
    (stock_data : list IndicatorRow) : result Signal :=
  latest <- iloc_last stock_data ;;
  let c := Fin (close (bar latest)) in
  let down := trend_down latest in
  let atr_factor := fdiv (ATR latest) c in
  if (position self =? 0)%Z then
    if trend_up latest && flt (RSI latest) (Fin 70) then
      let entry_price := py_min (fmul c (Fin 0.995)) (S1 latest) in
      let stop := fsub entry_price (fmul (Fin 2) (ATR latest)) in
      Ok {| action := buy;
            price := py_round entry_price 2;
            stop_loss := Some (py_round stop 2);
            target := Some (py_round
                              (fadd entry_price (fmul (Fin 3) (ATR latest))) 2);
            reason := None |}
    else
      Ok {| action := if trend_up latest then buy else sell;
            price := c;
            stop_loss := Some (fmul c (Fin 0.98));
            target := Some (fmul c (Fin 1.03));
            reason := None |}
  else
    match last_trade_price self with
    | None => Raise TypeError
    | Some ltp =>
        let current_return := fdiv (fsub c ltp) ltp in
        if fgt current_return (Fin 0.03) || fgt (RSI latest) (Fin 70) then
          Ok {| action := sell;
                price := fmul c (Fin 1.005);
                stop_loss := None;
                target := None;
                reason := Some take_profit_reason |}
        else if flt current_return (Fin (-0.02)) then
          Ok {| action := sell;
                price := fmul c (Fin 0.995);
                stop_loss := None;
                target := None;
                reason := Some stop_loss_reason |}
        else
          Ok {| action := hold;
                price := c;
                stop_loss := None;
                target := None;
                reason := Some hold_reason |}
    end.

(* ===================================================================== *)
(** ** Position tracker *)
(* ===================================================================== *)

(** [execute_trade]; [now] is the reading of the clock. *)
Definition execute_trade (now : Z) (self : TradingSystem) (signal : Signal)
  : TradingSystem :=
  let trade := {| trade_datetime := now;
                  trade_action := action signal;
                  trade_price := price signal;
                  trade_position := position self |} in
  let log := trade_log self ++ [trade] in
  match action signal with
  | buy => {| position := 1;
              last_trade_price := Some (price signal);
              trade_log := log |}
  | sell => {| position := 0;
               last_trade_price := None;
               trade_log := log |}
  | hold => {| position := position self;
               last_trade_price := last_trade_price self;
               trade_log := log |}
  end.

(** The pair the specification calls PositionState. *)
Definition position_state (self : TradingSystem) : Z * option fnum :=
  (position self, last_trade_price self).

Fixpoint execute_trades (now : Z) (self : TradingSystem) (signals : list Signal)
  : TradingSystem :=
  match signals with
  | [] => self
  | s :: tl => execute_trades now (execute_trade now self s) tl
  end.

(** States the tracker can be in: the initial one and those obtained from it
    by applying signals. *)
Inductive reachable : TradingSystem -> Prop :=
| reach_init : reachable init
| reach_step : forall now self signal,
    reachable self -> reachable (execute_trade now self signal).

(* ===================================================================== *)
(** ** One run of the strategy *)
(* ===================================================================== *)

(** What [run_daily_strategy] prints, line by line. *)
Inductive Line : Type :=
| Rule
| TradeDay (d : Z)
| LatestClose (c : Q)
| Instruction (a : Action)
| ExecPrice (p : fnum)
| StopLossLevel (p : fnum)
| TargetLevel (p : fnum)
| Logic (r : string)
| Failure (e : PyExc).

Definition opt_line (mk : fnum -> Line) (o : option fnum) : list Line :=
  match o with
  | Some p => [mk p]
  | None => []
  end.

(** The body of the [try] block after the fetch: the new state, the lines
    printed so far, and the exception that ended it, if any.  The last
    [print] reads [signal['reason']], a key the signals of the empty state
    do not have. *)
Definition run_body (now : Z) (self : TradingSystem) (stock_df : list Bar)
  : TradingSystem * list Line * option PyExc :=
  let rows := calculate_indicators stock_df in
  match generate_daily_signal self rows with
  | Raise e => (self, [], Some e)
  | Ok signal =>
      let self' := execute_trade now self signal in
      match iloc_last stock_df with
      | Raise e => (self', [Rule], Some e)
      | Ok b =>
          let printed :=
            [Rule; TradeDay (date b); LatestClose (close b);
             Instruction (action signal); ExecPrice (price signal)]
            ++ opt_line StopLossLevel (stop_loss signal)
            ++ opt_line TargetLevel (target signal) in
          match reason signal with
          | None => (self', printed, Some (KeyError "reason"))
          | Some r => (self', printed ++ [Logic r; Rule], None)
          end
      end
  end.

(** [run_daily_strategy]: [fetched] is what [get_trade_data] returned or
    raised.  Every exception is caught and printed. *)
Definition run_daily_strategy (now : Z) (self : TradingSystem)
    (fetched : result (list Bar)) : TradingSystem * list Line :=
  match fetched with
  | Raise e => (self, [Failure e])
  | Ok stock_df =>
      match run_body now self stock_df with
      | (self', printed, Some e) => (self', printed ++ [Failure e])
      | (self', printed, None) => (self', printed)
      end
  end.

(* ===================================================================== *)
(** ** Sample data used in the statements *)
(* ===================================================================== *)

(** The double written as the decimal [q]. *)
Definition dbl (q : Q) : fnum := Fin (Qred q).

(** A number of whole cents. *)
Definition whole_cents (x : fnum) : Prop :=
  exists (p : Q) (cents : Z), x = Fin p /\ p == inject_Z cents / 100.

(** [x] is [e] to two decimals: a number of whole cents at most half a cent
    away from the number [e]; an infinite or missing [e] is kept as it is.
    Which way an exact half cent goes is left open. *)
Definition two_decimals_of (e x : fnum) : Prop :=
  match e with
  | Fin q =>
      whole_cents x /\
      exists p : Q, x = Fin p /\ - (1 # 200) <= p - q <= 1 # 200
  | _ => x = e
  end.

(** A bar whose four prices are all [c]. *)
Definition flat_bar (d : Z) (c : Q) : Bar :=
  {| date := d; open := c; high := c; low := c; close := c; volume := 1000 |}.

(** A bar given by high, low and close. *)
Definition hlc_bar (h l c : Q) : Bar :=
  {| date := 1; open := c; high := h; low := l; close := c; volume := 1000 |}.

Definition sample_row (b : Bar) (ma5 ma20 ma60 atr rsi s1 : fnum)
  : IndicatorRow :=
  {| bar := b; MA5 := ma5; MA20 := ma20; MA60 := ma60; ATR := atr;
     RSI := rsi; Pivot := pivot_of b; S1 := s1;
     R1 := fsub (fmul (Fin 2) (pivot_of b)) (Fin (low b)) |}.

Definition holding (p : fnum) : TradingSystem :=
  {| position := 1; last_trade_price := Some p; trade_log := [] |}.

(** The advisory decision of the empty state's [else] branch. *)
Definition advisory (a : Action) (c : fnum) : Signal :=
  {| action := a; price := c;
     stop_loss := Some (fmul c (Fin 0.98));
     target := Some (fmul c (Fin 1.03));
     reason := None |}.

(** Closes 1, 2, ..., n as bars. *)
Definition rising_bars (n : nat) : list Bar :=
  map (fun i => flat_bar (Z.of_nat i) (inject_Z (Z.of_nat (S i)))) (seq 0 n).

Fixpoint strictly_increasing (l : list Q) : bool :=
  match l with
  | [] => true
  | x :: tl =>
      match tl with
      | [] => true
      | y :: _ => Qltb x y && strictly_increasing tl
      end
  end.

(** The invariant of the position state. *)
Definition price_iff_long (self : TradingSystem) : Prop :=
  last_trade_price self <> None <-> position self = 1%Z.

(** Rows and states of the worked scenarios. *)
Definition uptrend_row (b : Bar) (atr rsi s1 : fnum) : IndicatorRow :=
  sample_row b (dbl 10.5) (dbl 10) (dbl 9.5) atr rsi s1.

(** close 10.00, RSI 50, ATR 0.5, S1 9.8 *)
Definition buy_scenario_row : IndicatorRow :=
  uptrend_row (flat_bar 1 10) (dbl 0.5) (dbl 50) (dbl 9.8).

(** high 10.02, low 10.00, close 10.01, hence S1 = 10.00 *)
Definition odd_cent_row : IndicatorRow :=
  uptrend_row (hlc_bar 10.02 10 10.01) (dbl 0.5) (dbl 50) (dbl 10).

Definition long_scenario_row (c : Q) (rsi : fnum) : IndicatorRow :=
  uptrend_row (flat_bar 1 c) (dbl 0.5) rsi (Fin c).

(** A warm-up row: the 60-day average is not available yet. *)
Definition warmup_row : IndicatorRow :=
  sample_row (flat_bar 1 10) (dbl 10.5) (dbl 10) NaN (dbl 0.5) (dbl 50) (dbl 10).

(** Averages in a rising order, RSI missing. *)
Definition no_rsi_row : IndicatorRow :=
  uptrend_row (flat_bar 1 10) (dbl 0.5) NaN (dbl 10).

(** Bars with the given closes, dated 0, 1, 2, ... *)
Definition bars_of (closes : list Q) : list Bar :=
  map (fun ic : nat * Q => flat_bar (Z.of_nat (fst ic)) (snd ic))
      (combine (seq 0 (length closes)) closes).

Definition three_bars : list Bar := bars_of [10; 11; 12].

Definition constant_bars : list Bar := bars_of [10; 10; 10].

(** The position state a trade log stands for: start empty and follow the
    recorded actions. *)
Definition replay_step (st : Z * option fnum) (t : Trade) : Z * option fnum :=
  match trade_action t with
  | buy => (1%Z, Some (trade_price t))
  | sell => (0%Z, None)
  | hold => st
  end.

Definition replay (log : list Trade) : Z * option fnum :=
  fold_left replay_step log (0%Z, None).

(** Row [i] of the frame computed from [df], whose bar is [b]. *)
Definition row_at (df : list Bar) (i : nat) (b : Bar) : IndicatorRow :=
  {| bar := b;
     MA5 := nth i (rolling 5 mean (map close df)) NaN;
     MA20 := nth i (rolling 20 mean (map close df)) NaN;
     MA60 := nth i (rolling 60 mean (map close df)) NaN;
     ATR := nth i (zip_with fsub (rolling 14 maxQ (map high df))
                                 (rolling 14 minQ (map low df))) NaN;
     RSI := nth i (zip_with rsi_of (avg_gain (map close df))
                                   (avg_loss (map close df))) NaN;
     Pivot := pivot_of b;
     S1 := fsub (fmul (Fin 2) (pivot_of b)) (Fin (high b));
     R1 := fsub (fmul (Fin 2) (pivot_of b)) (Fin (low b)) |}.

(** Successive runs on one object: each day brings a clock reading and what
    the fetch returned. *)
Fixpoint run_days (self : TradingSystem) (days : list (Z * result (list Bar)))
  : TradingSystem :=
  match days with
  | [] => self
  | (now, fetched) :: tl =>
      run_days (fst (run_daily_strategy now self fetched)) tl
  end.


Fixpoint strictly_decreasing (l : list Q) : bool :=
  match l with
  | [] => true
  | x :: tl =>
      match tl with
      | [] => true
      | y :: _ => Qltb y x && strictly_decreasing tl
      end
  end.

(** Closes n, n-1, ..., 1 as bars. *)
Definition falling_bars (n : nat) : list Bar :=
  map (fun i => flat_bar (Z.of_nat i) (inject_Z (Z.of_nat (n - i)))) (seq 0 n).

(* ===================================================================== *)
(** ** Basic facts *)
(* ===================================================================== *)

Lemma Qltb_true (a b : Q) : Qltb a b = true <-> a < b.
Proof.
  unfold Qltb. rewrite Qlt_alt.
  destruct (Qcompare a b); split; congruence.
Qed.

Lemma Qltb_false (a b : Q) : Qltb a b = false <-> b <= a.
Proof.
  split; intro H.
  - apply Qnot_lt_le. intro L. apply Qltb_true in L. congruence.
  - destruct (Qltb a b) eqn:E; [|reflexivity].
    apply Qltb_true in E. exfalso. apply (Qlt_not_le _ _ E H).
Qed.

Lemma Qzerob_true (a : Q) : Qzerob a = true <-> a == 0.
Proof.
  unfold Qzerob. rewrite Qeq_alt.
  destruct (Qcompare a 0); split; congruence.
Qed.

Lemma flt_nan_l (x : fnum) : flt NaN x = false.
Proof. reflexivity. Qed.

Lemma flt_nan_r (x : fnum) : flt x NaN = false.
Proof. destruct x; reflexivity. Qed.

Lemma is_nan_true (x : fnum) : is_nan x = true -> x = NaN.
Proof. destruct x; simpl; congruence. Qed.

Lemma iloc_last_app {A : Type} (l : list A) (x : A) :
  iloc_last (l ++ [x]) = Ok x.
Proof.
  induction l as [|a l IH]; [reflexivity|].
  simpl. rewrite IH. destruct (l ++ [x]) eqn:E; [|reflexivity].
  destruct l; discriminate.
Qed.

Lemma iloc_last_nonempty {A : Type} (l : list A) :
  l <> [] -> exists x, iloc_last l = Ok x.
Proof.
  intro H. destruct (exists_last H) as [l' [x ->]].
  exists x. apply iloc_last_app.
Qed.

Lemma iloc_last_raise {A : Type} (l : list A) (e : PyExc) :
  iloc_last l = Raise e -> l = [] /\ e = IndexError.
Proof.
  destruct l as [|a l]; simpl.
  - intro H. inversion H. auto.
  - intro H. destruct (@iloc_last_nonempty A (a :: l)) as [x Hx]; [discriminate|].
    simpl in Hx. congruence.
Qed.

(** The generator unfolded at a known latest row. *)
Lemma generate_flat (self : TradingSystem) (rows : list IndicatorRow)
    (latest : IndicatorRow) :
  iloc_last rows = Ok latest ->
  position self = 0%Z ->
  generate_daily_signal self rows =
    let c := Fin (close (bar latest)) in
    if trend_up latest && flt (RSI latest) (Fin 70) then
      let entry_price := py_min (fmul c (Fin 0.995)) (S1 latest) in
      Ok {| action := buy;
            price := py_round entry_price 2;
            stop_loss :=
              Some (py_round (fsub entry_price (fmul (Fin 2) (ATR latest))) 2);
            target :=
              Some (py_round (fadd entry_price (fmul (Fin 3) (ATR latest))) 2);
            reason := None |}
    else Ok (advisory (if trend_up latest then buy else sell) c).
Proof.
  intros Hl Hp. unfold generate_daily_signal. rewrite Hl. simpl.
  rewrite Hp. reflexivity.
Qed.

Lemma generate_long (self : TradingSystem) (rows : list IndicatorRow)
    (latest : IndicatorRow) (ltp : fnum) :
  iloc_last rows = Ok latest ->
  position self <> 0%Z ->
  last_trade_price self = Some ltp ->
  generate_daily_signal self rows =
    let c := Fin (close (bar latest)) in
    let current_return := fdiv (fsub c ltp) ltp in
    if fgt current_return (Fin 0.03) || fgt (RSI latest) (Fin 70) then
      Ok {| action := sell; price := fmul c (Fin 1.005);
            stop_loss := None; target := None;
            reason := Some take_profit_reason |}
    else if flt current_return (Fin (-0.02)) then
      Ok {| action := sell; price := fmul c (Fin 0.995);
            stop_loss := None; target := None;
            reason := Some stop_loss_reason |}
    else
      Ok {| action := hold; price := c;
            stop_loss := None; target := None;
            reason := Some hold_reason |}.
Proof.
  intros Hl Hp Ht. unfold generate_daily_signal. rewrite Hl. simpl.
  apply Z.eqb_neq in Hp. rewrite Hp, Ht. reflexivity.
Qed.

(* ===================================================================== *)
(** ** Signal generator: the empty state *)
(* ===================================================================== *)

(** C1, as stated, fails: the price of the primary buy is the rounded
    minimum.  With close 10.01 and S1 10.00 the minimum is 9.95995 and the
    emitted price is 9.96. *)
Lemma C1_price_is_rounded :
  trend_up odd_cent_row = true /\
  flt (RSI odd_cent_row) (Fin 70) = true /\
  py_min (fmul (Fin 10.01) (Fin 0.995)) (S1 odd_cent_row) = dbl 9.95995 /\
  exists s,
    generate_daily_signal init [odd_cent_row] = Ok s /\
    action s = buy /\
    price s = dbl 9.96 /\
    price s <> py_min (fmul (Fin 10.01) (Fin 0.995)) (S1 odd_cent_row).
Proof.
  repeat split; try reflexivity.
  eexists. repeat split; try reflexivity.
  vm_compute. discriminate.
Qed.

(** C1 (amended): in the empty state, when MA5 > MA20 > MA60 and RSI < 70,
    the generator emits a buy whose price is min(close*0.995, S1) rounded to
    two decimals, whose stop is (that minimum - 2*ATR) rounded and whose
    target is (that minimum + 3*ATR) rounded, the minimum itself being taken
    before rounding.  On the scenario close 10.00, RSI 50, ATR 0.5, S1 9.8
    this is a buy at 9.80 with stop 8.80 and target 11.30. *)
Theorem C1_flat_trend_buy :
  (forall (self : TradingSystem) (rows : list IndicatorRow)
          (latest : IndicatorRow),
      iloc_last rows = Ok latest ->
      position self = 0%Z ->
      trend_up latest = true ->
      flt (RSI latest) (Fin 70) = true ->
      let entry :=
        py_min (fmul (Fin (close (bar latest))) (Fin 0.995)) (S1 latest) in
      generate_daily_signal self rows =
        Ok {| action := buy;
              price := py_round entry 2;
              stop_loss :=
                Some (py_round (fsub entry (fmul (Fin 2) (ATR latest))) 2);
              target :=
                Some (py_round (fadd entry (fmul (Fin 3) (ATR latest))) 2);
              reason := None |})
  /\ generate_daily_signal init [buy_scenario_row] =
       Ok {| action := buy;
             price := dbl 9.80;
             stop_loss := Some (dbl 8.80);
             target := Some (dbl 11.30);
             reason := None |}.
Proof.
  split.
  - intros self rows latest Hl Hp Ht Hr entry.
    rewrite (generate_flat self rows latest Hl Hp). cbv zeta.
    rewrite Ht, Hr. reflexivity.
  - reflexivity.
Qed.

Lemma C1_flat_trend_buy_witness :
  generate_daily_signal init [odd_cent_row] =
    Ok {| action := buy;
          price := dbl 9.96;
          stop_loss := Some (dbl 8.96);
          target := Some (dbl 11.46);
          reason := None |}.
Proof.
  rewrite (proj1 C1_flat_trend_buy init [odd_cent_row] odd_cent_row);
    reflexivity.
Defined.

(* ===================================================================== *)
(** ** Signal generator: the holding state *)
(* ===================================================================== *)

(** C2, as stated, fails on its first scenario: bought at 10.00, close 10.35,
    RSI 60 gives a sell at 10.35*1.005 = 10.40175, which is not 10.40. *)
Lemma C2_price_not_rounded :
  exists s,
    generate_daily_signal (holding (dbl 10)) [long_scenario_row 10.35 (dbl 60)]
      = Ok s /\
    action s = sell /\
    price s = dbl 10.40175 /\
    price s <> dbl 10.40.
Proof.
  eexists. repeat split; try reflexivity.
  vm_compute. discriminate.
Qed.

(** C2 (amended): in the holding state with a recorded price, with
    current_return = (close - last_trade_price)/last_trade_price: a return
    above 0.03 or an RSI above 70 gives a sell at close*1.005 with the
    take-profit reason; otherwise a return below -0.02 gives a sell at
    close*0.995 with the stop-loss reason; otherwise a hold at close.
    Bought at 10.00: close 10.35 with RSI 60 gives a sell at the unrounded
    10.40175, and close 9.75 with an RSI not above 70 gives a sell at
    9.75*0.995. *)
Theorem C2_long_branches :
  (forall (self : TradingSystem) (rows : list IndicatorRow)
          (latest : IndicatorRow) (ltp : fnum),
      iloc_last rows = Ok latest ->
      position self <> 0%Z ->
      last_trade_price self = Some ltp ->
      let c := Fin (close (bar latest)) in
      let current_return := fdiv (fsub c ltp) ltp in
      generate_daily_signal self rows =
        Ok (if fgt current_return (Fin 0.03) || fgt (RSI latest) (Fin 70)
            then {| action := sell; price := fmul c (Fin 1.005);
                    stop_loss := None; target := None;
                    reason := Some take_profit_reason |}
            else if flt current_return (Fin (-0.02))
            then {| action := sell; price := fmul c (Fin 0.995);
                    stop_loss := None; target := None;
                    reason := Some stop_loss_reason |}
            else {| action := hold; price := c;
                    stop_loss := None; target := None;
                    reason := Some hold_reason |}))
  /\ generate_daily_signal (holding (dbl 10))
       [long_scenario_row 10.35 (dbl 60)] =
       Ok {| action := sell; price := dbl 10.40175;
             stop_loss := None; target := None;
             reason := Some take_profit_reason |}
  /\ (forall rsi : fnum,
        fgt rsi (Fin 70) = false ->
        generate_daily_signal (holding (dbl 10))
          [long_scenario_row 9.75 rsi] =
          Ok {| action := sell; price := fmul (Fin 9.75) (Fin 0.995);
                stop_loss := None; target := None;
                reason := Some stop_loss_reason |}).
Proof.
  split; [|split].
  - intros self rows latest ltp Hl Hp Ht c current_return.
    rewrite (generate_long self rows latest ltp Hl Hp Ht). cbv zeta.
    fold c. fold current_return.
    destruct (fgt current_return (Fin 0.03) || fgt (RSI latest) (Fin 70));
      [reflexivity|].
    destruct (flt current_return (Fin (-0.02))); reflexivity.
  - reflexivity.
  - intros rsi Hr.
    rewrite (generate_long (holding (dbl 10)) [long_scenario_row 9.75 rsi]
               (long_scenario_row 9.75 rsi) (dbl 10));
      [|reflexivity|discriminate|reflexivity].
    cbv zeta.
    change (RSI (long_scenario_row 9.75 rsi)) with rsi. rewrite Hr.
    reflexivity.
Qed.

Lemma C2_long_branches_witness :
  generate_daily_signal (holding (dbl 10)) [long_scenario_row 10.1 (dbl 60)] =
    Ok {| action := hold; price := Fin 10.1;
          stop_loss := None; target := None;
          reason := Some hold_reason |}.
Proof.
  rewrite (proj1 C2_long_branches (holding (dbl 10))
             [long_scenario_row 10.1 (dbl 60)]
             (long_scenario_row 10.1 (dbl 60)) (dbl 10));
    [reflexivity|reflexivity|discriminate|reflexivity].
Defined.

(* ===================================================================== *)
(** ** Signal generator: errors and missing values *)
(* ===================================================================== *)

Lemma trend_up_nan (latest : IndicatorRow) :
  is_nan (MA5 latest) || is_nan (MA20 latest) || is_nan (MA60 latest) = true ->
  trend_up latest = false.
Proof.
  unfold trend_up, fgt. intro H.
  apply orb_true_iff in H. destruct H as [H|H].
  - apply orb_true_iff in H. destruct H as [H|H];
      apply is_nan_true in H; rewrite H.
    + rewrite flt_nan_r. reflexivity.
    + rewrite flt_nan_l. reflexivity.
  - apply is_nan_true in H. rewrite H. simpl. apply andb_false_r.
Qed.

(** C4, as stated, fails: a latest row whose MA60 is missing does not make
    the generator raise; it returns the advisory sell. *)
Lemma C4_missing_field_no_error :
  is_nan (MA60 warmup_row) = true /\
  generate_daily_signal init [warmup_row] = Ok (advisory sell (Fin 10)).
Proof. split; reflexivity. Qed.

(** C4 (amended): the generator does not inspect whether indicator values
    are defined and has no error for a missing one.  It raises exactly in
    two situations: [IndexError] on an empty frame, and [TypeError] when the
    position is not empty while no trade price is recorded.  On every other
    input, rows with undefined indicators included, it returns a
    decision. *)
Theorem C4_raises_iff (self : TradingSystem) (rows : list IndicatorRow)
    (e : PyExc) :
  generate_daily_signal self rows = Raise e <->
  (rows = [] /\ e = IndexError) \/
  (rows <> [] /\ position self <> 0%Z /\ last_trade_price self = None /\
   e = TypeError).
Proof.
  split.
  - intro H. destruct (iloc_last rows) as [latest|e'] eqn:Hl.
    + right. assert (Hne : rows <> []) by (intros ->; discriminate).
      split; [exact Hne|].
      destruct (Z.eq_dec (position self) 0) as [Hp|Hp].
      * rewrite (generate_flat self rows latest Hl Hp) in H. cbv zeta in H.
        destruct (trend_up latest && flt (RSI latest) (Fin 70)); discriminate.
      * destruct (last_trade_price self) as [ltp|] eqn:Ht.
        -- rewrite (generate_long self rows latest ltp Hl Hp Ht) in H.
           cbv zeta in H.
           destruct (fgt _ _ || fgt _ _); [discriminate|].
           destruct (flt _ _); discriminate.
        -- unfold generate_daily_signal in H. rewrite Hl in H. simpl in H.
           apply Z.eqb_neq in Hp. rewrite Hp, Ht in H.
           apply Z.eqb_neq in Hp. inversion H. auto.
    + left. apply iloc_last_raise in Hl. destruct Hl as [-> ->].
      split; [reflexivity|]. unfold generate_daily_signal in H. simpl in H.
      congruence.
  - intros [[-> ->]|[Hne [Hp [Ht ->]]]].
    + reflexivity.
    + destruct (iloc_last_nonempty rows Hne) as [latest Hl].
      unfold generate_daily_signal. rewrite Hl. simpl.
      apply Z.eqb_neq in Hp. rewrite Hp, Ht. reflexivity.
Qed.

(* ===================================================================== *)
(** ** Rounding of the emitted prices *)
(* ===================================================================== *)

Lemma rint_comp (a b : Q) : a == b -> rint a = rint b.
Proof.
  intro H. unfold rint. rewrite (Qfloor_comp a b H).
  assert (E : Qcompare (a - inject_Z (Qfloor b)) (1 # 2)
              = Qcompare (b - inject_Z (Qfloor b)) (1 # 2))
    by (now rewrite H).
  now rewrite E.
Qed.

Lemma rint_inject_Z (n : Z) : rint (inject_Z n) = n.
Proof.
  unfold rint. rewrite Qfloor_Z.
  assert (L : Qcompare (inject_Z n - inject_Z n) (1 # 2) = Lt)
    by (apply -> Qlt_alt; lra).
  now rewrite L.
Qed.

Lemma py_round_idem (x : fnum) (n : nat) :
  py_round (py_round x n) n = py_round x n.
Proof.
  destruct x as [| s | q]; try reflexivity.
  unfold py_round.
  set (p := inject_Z (10 ^ Z.of_nat n)).
  set (m := rint (q * p)).
  assert (Hp : ~ p == 0).
  { unfold p. intro H. unfold Qeq in H. simpl in H.
    assert (0 < 10 ^ Z.of_nat n)%Z by (apply Z.pow_pos_nonneg; lia). lia. }
  assert (E : Qred (inject_Z m / p) * p == inject_Z m).
  { rewrite Qred_correct. field. exact Hp. }
  rewrite (rint_comp _ _ E), rint_inject_Z. reflexivity.
Qed.

(* ===================================================================== *)
(** ** Position tracker *)
(* ===================================================================== *)

Lemma execute_trade_log (now : Z) (self : TradingSystem) (signal : Signal) :
  trade_log (execute_trade now self signal) =
    trade_log self ++ [{| trade_datetime := now;
                          trade_action := action signal;
                          trade_price := price signal;
                          trade_position := position self |}].
Proof. unfold execute_trade. destruct (action signal); reflexivity. Qed.

Lemma execute_trade_preserves (now : Z) (self : TradingSystem)
    (signal : Signal) :
  price_iff_long self -> price_iff_long (execute_trade now self signal).
Proof.
  unfold price_iff_long, execute_trade. intros [H1 H2].
  destruct (action signal); simpl; split; intro H;
    try congruence; try discriminate; auto.
Qed.

(** C6: a trade price is recorded exactly when the position is long: this
    holds in the initial state, is preserved by applying any decision (buy,
    sell or hold), and therefore holds in every reachable state. *)
Theorem C6_price_iff_long_invariant :
  price_iff_long init /\
  (forall (now : Z) (self : TradingSystem) (signal : Signal),
      price_iff_long self -> price_iff_long (execute_trade now self signal)) /\
  (forall self : TradingSystem, reachable self -> price_iff_long self).
Proof.
  assert (H0 : price_iff_long init).
  { unfold price_iff_long. simpl. split; intro H; [congruence|discriminate]. }
  split; [exact H0|]. split; [exact execute_trade_preserves|].
  intros self R. induction R as [|now self signal R IH].
  - exact H0.
  - apply execute_trade_preserves, IH.
Qed.

Lemma C6_price_iff_long_invariant_witness :
  price_iff_long
    (execute_trade 2 (execute_trade 1 init (advisory buy (Fin 10)))
       (advisory sell (Fin 11))).
Proof.
  apply (proj2 (proj2 C6_price_iff_long_invariant)).
  apply reach_step, reach_step, reach_init.
Defined.

(** C7: from an empty position with no recorded price, a buy followed by a
    sell gives back exactly that position state; and hold decisions, however
    many are applied, leave the position state unchanged. *)
Theorem C7_round_trip_and_hold :
  (forall (now1 now2 : Z) (self : TradingSystem) (b s : Signal),
      position self = 0%Z ->
      last_trade_price self = None ->
      action b = buy ->
      action s = sell ->
      position_state (execute_trade now2 (execute_trade now1 self b) s)
        = position_state self) /\
  (forall (now : Z) (holds : list Signal) (self : TradingSystem),
      Forall (fun h => action h = hold) holds ->
      position_state (execute_trades now self holds) = position_state self).
Proof.
  split.
  - intros now1 now2 self b s Hp Ht Hb Hs.
    unfold position_state, execute_trade. rewrite Hb, Hs. simpl.
    now rewrite Hp, Ht.
  - intros now holds. induction holds as [|h tl IH]; intros self HF.
    + reflexivity.
    + inversion HF as [|h' tl' Hh Htl]; subst. simpl.
      rewrite IH by exact Htl.
      unfold position_state, execute_trade. rewrite Hh. reflexivity.
Qed.

Lemma C7_round_trip_and_hold_witness :
  position_state
    (execute_trade 2 (execute_trade 1 init (advisory buy (Fin 10)))
       (advisory sell (Fin 11)))
    = position_state init.
Proof.
  apply (proj1 C7_round_trip_and_hold); reflexivity.
Defined.

(* ===================================================================== *)
(** ** Indicator engine: rows and columns *)
(* ===================================================================== *)

Lemma nth_error_combine_seq {A : Type} (l : list A) (s i : nat) :
  nth_error (combine (seq s (length l)) l) i =
    option_map (fun b => ((s + i)%nat, b)) (nth_error l i).
Proof.
  revert s i. induction l as [|a l IH]; intros s i.
  - destruct i; reflexivity.
  - destruct i as [|i]; simpl.
    + now rewrite Nat.add_0_r.
    + rewrite IH. now rewrite Nat.add_succ_r.
Qed.

Lemma calculate_indicators_length (df : list Bar) :
  length (calculate_indicators df) = length df.
Proof.
  unfold calculate_indicators. rewrite length_map, length_combine, length_seq.
  apply Nat.min_id.
Qed.

(** Row [i] of the result, column by column. *)
Lemma calculate_indicators_nth (df : list Bar) (i : nat) (b : Bar) :
  nth_error df i = Some b ->
  exists row,
    nth_error (calculate_indicators df) i = Some row /\
    bar row = b /\
    MA5 row = nth i (rolling 5 mean (map close df)) NaN /\
    MA20 row = nth i (rolling 20 mean (map close df)) NaN /\
    MA60 row = nth i (rolling 60 mean (map close df)) NaN /\
    ATR row = nth i (zip_with fsub (rolling 14 maxQ (map high df))
                                   (rolling 14 minQ (map low df))) NaN /\
    RSI row = nth i (zip_with rsi_of (avg_gain (map close df))
                                     (avg_loss (map close df))) NaN.
Proof.
  intro H. unfold calculate_indicators.
  rewrite nth_error_map, nth_error_combine_seq, H.
  unfold option_map. eexists. split; [reflexivity|].
  repeat split; reflexivity.
Qed.

Lemma iloc_last_nth {A : Type} (l : list A) (x : A) :
  nth_error l (length l - 1) = Some x -> iloc_last l = Ok x.
Proof.
  induction l as [|a l IH]; [discriminate|].
  destruct l as [|a' l].
  - simpl. congruence.
  - intro H. change (iloc_last (a :: a' :: l)) with (iloc_last (a' :: l)).
    apply IH. simpl in H. simpl. now rewrite Nat.sub_0_r.
Qed.

Lemma rolling_length (k : nat) (agg : list Q -> Q) (xs : list Q) :
  length (rolling k agg xs) = length xs.
Proof. unfold rolling. now rewrite length_map, length_seq. Qed.

Lemma rolling_nth (k : nat) (agg : list Q -> Q) (xs : list Q) (i : nat) :
  (i < length xs)%nat ->
  nth i (rolling k agg xs) NaN =
    if (k <=? S i)%nat then Fin (agg (lastn k (firstn (S i) xs))) else NaN.
Proof.
  intro H. unfold rolling.
  set (f := fun i0 : nat => if (k <=? S i0)%nat
                            then Fin (agg (lastn k (firstn (S i0) xs)))
                            else NaN).
  rewrite (nth_indep _ NaN (f 0%nat)) by (now rewrite length_map, length_seq).
  rewrite map_nth, seq_nth by exact H. reflexivity.
Qed.

Lemma rolling_warmup (k : nat) (agg : list Q -> Q) (xs : list Q) (i : nat) :
  (S i < k)%nat -> nth i (rolling k agg xs) NaN = NaN.
Proof.
  intro H. destruct (Nat.lt_ge_cases i (length xs)) as [L|L].
  - rewrite rolling_nth by exact L.
    assert (E : (k <=? S i)%nat = false) by (apply Nat.leb_gt; exact H).
    now rewrite E.
  - apply nth_overflow. now rewrite rolling_length.
Qed.

Lemma zip_with_nth {A B C : Type} (f : A -> B -> C) (l : list A)
    (m : list B) (i : nat) (da : A) (db : B) (dc : C) :
  (i < length l)%nat -> (i < length m)%nat ->
  nth i (zip_with f l m) dc = f (nth i l da) (nth i m db).
Proof.
  revert m i. induction l as [|a l IH]; intros [|b m] i Hl Hm;
    simpl in *; try lia.
  destruct i as [|i]; [reflexivity|]. apply IH; lia.
Qed.

Lemma last_row (df : list Bar) :
  df <> [] ->
  exists b row,
    iloc_last df = Ok b /\
    iloc_last (calculate_indicators df) = Ok row /\
    nth_error df (length df - 1) = Some b /\
    nth_error (calculate_indicators df) (length df - 1) = Some row /\
    bar row = b.
Proof.
  intro Hne.
  assert (Hlen : (length df - 1 < length df)%nat).
  { destruct df; [congruence|simpl; lia]. }
  destruct (nth_error df (length df - 1)) as [b|] eqn:Hb;
    [|apply nth_error_None in Hb; lia].
  destruct (calculate_indicators_nth df _ b Hb) as [row [Hrow [Hbar _]]].
  exists b, row. repeat split; auto.
  - now apply iloc_last_nth.
  - apply iloc_last_nth. now rewrite calculate_indicators_length.
Qed.

Lemma row_index (df : list Bar) (row : IndicatorRow) :
  In row (calculate_indicators df) ->
  exists i b, (i < length df)%nat /\ nth_error df i = Some b /\
              nth_error (calculate_indicators df) i = Some row.
Proof.
  intro H. apply In_nth_error in H. destruct H as [i Hi].
  assert (L : (i < length df)%nat).
  { rewrite <- calculate_indicators_length. apply nth_error_Some. congruence. }
  destruct (nth_error df i) as [b|] eqn:Hb;
    [|apply nth_error_None in Hb; lia].
  exists i, b. auto.
Qed.

(* ===================================================================== *)
(** ** Indicator engine: short histories *)
(* ===================================================================== *)

(** C8, as stated, fails: on three bars, fewer than any window, the engine
    returns rows whose averages and range are NaN while the RSI already has
    values, the generator returns a decision and the run applies it; no
    error is raised on the way. *)
Lemma C8_short_history_no_error :
  (length three_bars < 5)%nat /\
  map MA5 (calculate_indicators three_bars) = [NaN; NaN; NaN] /\
  map ATR (calculate_indicators three_bars) = [NaN; NaN; NaN] /\
  map RSI (calculate_indicators three_bars) = [NaN; Fin 100; Fin 100] /\
  generate_daily_signal init (calculate_indicators three_bars) =
    Ok (advisory sell (Fin 12)) /\
  fst (run_daily_strategy 7 init (Ok three_bars)) =
    {| position := 0; last_trade_price := None;
       trade_log := [{| trade_datetime := 7; trade_action := sell;
                        trade_price := Fin 12; trade_position := 0 |}] |}.
Proof.
  split; [vm_compute; lia|]. repeat split; reflexivity.
Qed.

(** C8 (amended): there is no insufficient-history error.  When the frame
    has fewer rows than a rolling window (5, 20 or 60 for the averages, 14
    for the range), the engine returns its rows with NaN in that column.
    With a non-empty history of fewer than 60 bars and an empty position the
    run goes on: the generator returns the advisory sell at the latest
    close and the tracker applies it. *)
Theorem C8_short_history_yields_nan :
  (forall (df : list Bar) (row : IndicatorRow),
      In row (calculate_indicators df) ->
      ((length df < 5)%nat -> MA5 row = NaN) /\
      ((length df < 20)%nat -> MA20 row = NaN) /\
      ((length df < 60)%nat -> MA60 row = NaN) /\
      ((length df < 14)%nat -> ATR row = NaN)) /\
  (forall (now : Z) (self : TradingSystem) (df : list Bar),
      df <> [] ->
      (length df < 60)%nat ->
      position self = 0%Z ->
      exists b,
        iloc_last df = Ok b /\
        generate_daily_signal self (calculate_indicators df) =
          Ok (advisory sell (Fin (close b))) /\
        fst (run_daily_strategy now self (Ok df)) =
          execute_trade now self (advisory sell (Fin (close b)))).
Proof.
  split.
  - intros df row Hin.
    destruct (row_index df row Hin) as [i [b [Hi [Hb Hrow]]]].
    destruct (calculate_indicators_nth df i b Hb)
      as [row' [Hrow' [_ [H5 [H20 [H60 [Hatr _]]]]]]].
    assert (row' = row) by congruence. subst row'.
    repeat split; intro L.
    + rewrite H5. apply rolling_warmup. lia.
    + rewrite H20. apply rolling_warmup. lia.
    + rewrite H60. apply rolling_warmup. lia.
    + rewrite Hatr.
      rewrite (zip_with_nth fsub _ _ i NaN NaN NaN)
        by (rewrite rolling_length, length_map; exact Hi).
      rewrite !rolling_warmup by lia. reflexivity.
  - intros now self df Hne Hlen Hp.
    destruct (last_row df Hne) as [b [row [Hb [Hrow [Hb' [Hnth Hbar]]]]]].
    exists b. split; [exact Hb|].
    assert (H60 : MA60 row = NaN).
    { destruct (calculate_indicators_nth df _ b Hb')
        as [row' [Hrow' [_ [_ [_ [H60 _]]]]]].
      assert (row' = row) by congruence. subst row'.
      rewrite H60. apply rolling_warmup. lia. }
    assert (Hgen : generate_daily_signal self (calculate_indicators df) =
                   Ok (advisory sell (Fin (close b)))).
    { rewrite (generate_flat self _ row Hrow Hp). cbv zeta.
      assert (Ht : trend_up row = false).
      { apply trend_up_nan. rewrite H60. simpl. apply orb_true_r. }
      rewrite Ht, Hbar. reflexivity. }
    split; [exact Hgen|].
    unfold run_daily_strategy, run_body. rewrite Hgen, Hb. reflexivity.
Qed.

Lemma C8_short_history_yields_nan_witness :
  exists b,
    iloc_last three_bars = Ok b /\
    generate_daily_signal init (calculate_indicators three_bars) =
      Ok (advisory sell (Fin (close b))) /\
    fst (run_daily_strategy 7 init (Ok three_bars)) =
      execute_trade 7 init (advisory sell (Fin (close b))).
Proof.
  apply (proj2 C8_short_history_yields_nan 7%Z init three_bars).
  - discriminate.
  - vm_compute. lia.
  - reflexivity.
Defined.

(* ===================================================================== *)
(** ** Indicator engine: RSI with no losses *)
(* ===================================================================== *)

Lemma ewm_from_length (a num den : Q) (xs : list Q) :
  length (ewm_from a num den xs) = length xs.
Proof.
  revert num den. induction xs as [|x tl IH]; intros num den; simpl; auto.
Qed.

Lemma diff_length (xs : list Q) : length (diff xs) = length xs.
Proof.
  destruct xs as [|x tl]; [reflexivity|]. simpl. f_equal.
  revert x. induction tl as [|y tl IH]; intro x; simpl; auto.
Qed.

Lemma avg_gain_length (closes : list Q) :
  length (avg_gain closes) = length closes.
Proof.
  unfold avg_gain, ewm_mean.
  now rewrite ewm_from_length, length_map, diff_length.
Qed.

Lemma avg_loss_length (closes : list Q) :
  length (avg_loss closes) = length closes.
Proof.
  unfold avg_loss, ewm_mean.
  now rewrite ewm_from_length, length_map, diff_length.
Qed.

Lemma rsi_of_zero_loss (g l : Q) :
  l == 0 -> rsi_of g l = if Qzerob g then NaN else Fin 100.
Proof.
  intro H. unfold rsi_of. unfold fdiv at 2.
  apply Qzerob_true in H. rewrite H.
  destruct (Qzerob g); reflexivity.
Qed.

Lemma rsi_row (df : list Bar) (i : nat) (row : IndicatorRow) :
  nth_error (calculate_indicators df) i = Some row ->
  RSI row = rsi_of (nth i (avg_gain (map close df)) 0)
                   (nth i (avg_loss (map close df)) 0).
Proof.
  intro Hrow.
  assert (L : (i < length df)%nat).
  { rewrite <- calculate_indicators_length. apply nth_error_Some. congruence. }
  destruct (nth_error df i) as [b|] eqn:Hb;
    [|apply nth_error_None in Hb; lia].
  destruct (calculate_indicators_nth df i b Hb)
    as [row' [Hrow' [_ [_ [_ [_ [_ Hrsi]]]]]]].
  assert (row' = row) by congruence. subst row'.
  rewrite Hrsi. apply zip_with_nth.
  - now rewrite avg_gain_length, length_map.
  - now rewrite avg_loss_length, length_map.
Qed.

(* ===================================================================== *)
(** ** Indicator engine: averages of a rising series *)
(* ===================================================================== *)

Lemma strictly_increasing_sorted (l : list Q) :
  strictly_increasing l = true -> StronglySorted Qlt l.
Proof.
  intro H. apply Sorted_StronglySorted.
  - intros x y z. apply Qlt_trans.
  - induction l as [|x tl IH]; [constructor|].
    destruct tl as [|y tl].
    + constructor; constructor.
    + simpl in H. apply andb_true_iff in H. destruct H as [Hxy Htl].
      constructor.
      * apply IH. exact Htl.
      * constructor. now apply Qltb_true.
Qed.

Lemma StronglySorted_skipn {A : Type} (R : A -> A -> Prop) (k : nat)
    (l : list A) :
  StronglySorted R l -> StronglySorted R (skipn k l).
Proof.
  revert l. induction k as [|k IH]; intros l H; [exact H|].
  destruct l as [|a l]; [constructor|].
  simpl. apply IH. now inversion H.
Qed.

Lemma sorted_app_lt (A B : list Q) :
  StronglySorted Qlt (A ++ B) ->
  forall a b, In a A -> In b B -> a < b.
Proof.
  induction A as [|x A IH]; intros H a b Ha Hb; [contradiction|].
  simpl in H. inversion H as [|x' l' Hs Hf]; subst.
  destruct Ha as [->|Ha].
  - rewrite Forall_forall in Hf. apply Hf. apply in_or_app. now right.
  - now apply IH.
Qed.

Lemma sorted_app_r {A : Type} (R : A -> A -> Prop) (l m : list A) :
  StronglySorted R (l ++ m) -> StronglySorted R m.
Proof.
  induction l as [|x l IH]; intro H; [exact H|].
  apply IH. simpl in H. now inversion H.
Qed.

Lemma sumQ_app (A B : list Q) : sumQ (A ++ B) == sumQ A + sumQ B.
Proof.
  induction A as [|x A IH]; simpl.
  - lra.
  - fold (sumQ (A ++ B)). fold (sumQ A). rewrite IH. lra.
Qed.

Lemma Qlen_cons (n : nat) :
  inject_Z (Z.of_nat (S n)) == 1 + inject_Z (Z.of_nat n).
Proof.
  rewrite Nat2Z.inj_succ. unfold Z.succ. rewrite inject_Z_plus.
  change (inject_Z 1) with 1. lra.
Qed.

Lemma sumQ_upper (A : list Q) (c : Q) :
  (forall a, In a A -> a <= c) ->
  sumQ A <= inject_Z (Z.of_nat (length A)) * c.
Proof.
  induction A as [|x A IH]; intro H.
  - simpl. change (inject_Z 0) with 0. lra.
  - change (sumQ (x :: A)) with (x + sumQ A).
    change (length (x :: A)) with (S (length A)). rewrite Qlen_cons.
    assert (x <= c) by (apply H; now left).
    assert (sumQ A <= inject_Z (Z.of_nat (length A)) * c)
      by (apply IH; intros a Ha; apply H; now right).
    lra.
Qed.

Lemma sumQ_lower (B : list Q) (c : Q) :
  (forall b, In b B -> c <= b) ->
  inject_Z (Z.of_nat (length B)) * c <= sumQ B.
Proof.
  induction B as [|x B IH]; intro H.
  - simpl. change (inject_Z 0) with 0. lra.
  - change (sumQ (x :: B)) with (x + sumQ B).
    change (length (x :: B)) with (S (length B)). rewrite Qlen_cons.
    assert (c <= x) by (apply H; now left).
    assert (inject_Z (Z.of_nat (length B)) * c <= sumQ B)
      by (apply IH; intros b Hb; apply H; now right).
    lra.
Qed.

Lemma sumQ_upper_strict (A : list Q) (c : Q) :
  A <> [] ->
  (forall a, In a A -> a < c) ->
  sumQ A < inject_Z (Z.of_nat (length A)) * c.
Proof.
  intros Hne H. destruct A as [|x A]; [congruence|].
  change (sumQ (x :: A)) with (x + sumQ A).
  change (length (x :: A)) with (S (length A)). rewrite Qlen_cons.
  assert (x < c) by (apply H; now left).
  assert (sumQ A <= inject_Z (Z.of_nat (length A)) * c).
  { apply sumQ_upper. intros a Ha. apply Qlt_le_weak. apply H. now right. }
  lra.
Qed.

(** Cross-multiplied comparison of two quotients. *)
Lemma Qdiv_lt_cross (x y z w : Q) :
  0 < y -> 0 < w -> x * w < z * y -> x / y < z / w.
Proof.
  intros Hy Hw H.
  apply Qlt_shift_div_r; [exact Hy|].
  assert (E : z / w * y == (z * y) / w) by (field; lra).
  rewrite E. apply Qlt_shift_div_l; [exact Hw|exact H].
Qed.

(** In a strictly rising window the average of a proper suffix exceeds the
    average of the whole window. *)
Lemma mean_suffix_lt (A B : list Q) :
  StronglySorted Qlt (A ++ B) ->
  A <> [] -> B <> [] ->
  sumQ (A ++ B) / inject_Z (Z.of_nat (length (A ++ B)))
    < sumQ B / inject_Z (Z.of_nat (length B)).
Proof.
  intros Hs HA HB.
  destruct B as [|c B']; [congruence|].
  set (B := c :: B') in *.
  assert (HAc : forall a, In a A -> a < c).
  { intros a Ha. apply (sorted_app_lt A B Hs); [exact Ha|now left]. }
  assert (HBc : forall b, In b B -> c <= b).
  { intros b [<-|Hb]; [apply Qle_refl|].
    apply sorted_app_r in Hs. inversion Hs as [|x l _ Hf]; subst.
    rewrite Forall_forall in Hf. apply Qlt_le_weak. now apply Hf. }
  pose proof (sumQ_upper_strict A c HA HAc) as UA.
  pose proof (sumQ_lower B c HBc) as LB.
  set (nA := inject_Z (Z.of_nat (length A))) in *.
  set (nB := inject_Z (Z.of_nat (length B))) in *.
  assert (PA : 0 < nA).
  { unfold nA. change 0 with (inject_Z 0). rewrite <- Zlt_Qlt.
    destruct A; [congruence|simpl; lia]. }
  assert (PB : 0 < nB).
  { unfold nB. change 0 with (inject_Z 0). rewrite <- Zlt_Qlt.
    unfold B. simpl. lia. }
  assert (EL : inject_Z (Z.of_nat (length (A ++ B))) == nA + nB).
  { rewrite length_app, Nat2Z.inj_add, inject_Z_plus. reflexivity. }
  rewrite EL, sumQ_app.
  apply Qdiv_lt_cross; [lra|exact PB|].
  assert (M1 : sumQ A * nB < nA * c * nB).
  { apply Qmult_lt_compat_r; [exact PB|exact UA]. }
  assert (M2 : nA * (nB * c) <= nA * sumQ B).
  { apply Qmult_le_l; [exact PA|exact LB]. }
  lra.
Qed.

Lemma lastn_length {A : Type} (k : nat) (l : list A) :
  (k <= length l)%nat -> length (lastn k l) = k.
Proof. intro H. unfold lastn. rewrite length_skipn. lia. Qed.

Lemma lastn_split {A : Type} (m n : nat) (l : list A) :
  (m <= n)%nat -> (n <= length l)%nat ->
  lastn n l = firstn (n - m) (lastn n l) ++ lastn m l.
Proof.
  intros Hmn Hn. unfold lastn.
  rewrite <- (firstn_skipn (n - m) (skipn (length l - n) l)) at 1.
  f_equal. rewrite skipn_skipn. f_equal. lia.
Qed.

Lemma mean_lastn_lt (m n : nat) (l : list Q) :
  StronglySorted Qlt l ->
  (0 < m)%nat -> (m < n)%nat -> (n <= length l)%nat ->
  mean (lastn n l) < mean (lastn m l).
Proof.
  intros Hs Hm Hmn Hn. unfold mean. apply Qred_lt.
  assert (Hsplit := lastn_split m n l (Nat.lt_le_incl _ _ Hmn) Hn).
  set (A := firstn (n - m) (lastn n l)) in *.
  rewrite Hsplit. apply mean_suffix_lt.
  - rewrite <- Hsplit. unfold lastn. now apply StronglySorted_skipn.
  - intro E. apply (f_equal (@length Q)) in E. unfold A in E.
    rewrite length_firstn, lastn_length in E by exact Hn. simpl in E. lia.
  - intro E. apply (f_equal (@length Q)) in E.
    rewrite lastn_length in E by lia. simpl in E. lia.
Qed.

(** The rolling average at the last row is the average of the last [k]
    closes. *)
Lemma rolling_mean_last (k : nat) (xs : list Q) :
  (0 < k)%nat -> (k <= length xs)%nat ->
  nth (length xs - 1) (rolling k mean xs) NaN = Fin (mean (lastn k xs)).
Proof.
  intros Hk Hlen. rewrite rolling_nth by lia.
  replace (S (length xs - 1)) with (length xs) by lia.
  rewrite firstn_all.
  assert (E : (k <=? length xs)%nat = true) by (now apply Nat.leb_le).
  now rewrite E.
Qed.

(** The averages at the latest row of a strictly rising series of at least
    60 closes. *)
Lemma rising_trend_up (df : list Bar) :
  (60 <= length df)%nat ->
  strictly_increasing (map close df) = true ->
  exists latest,
    iloc_last (calculate_indicators df) = Ok latest /\
    fle (MA20 latest) (MA5 latest) = true /\
    fle (MA60 latest) (MA20 latest) = true /\
    trend_up latest = true.
Proof.
  intros Hlen Hinc.
  assert (Hne : df <> []) by (intros ->; simpl in Hlen; lia).
  destruct (last_row df Hne) as [b [row [Hb [Hrow [Hb' [Hnth Hbar]]]]]].
  destruct (calculate_indicators_nth df _ b Hb')
    as [row' [Hrow' [_ [H5 [H20 [H60 _]]]]]].
  assert (row' = row) by congruence. subst row'.
  set (xs := map close df) in *.
  assert (Lx : length xs = length df) by (unfold xs; apply length_map).
  rewrite <- Lx in H5, H20, H60.
  rewrite rolling_mean_last in H5, H20, H60 by lia.
  pose proof (strictly_increasing_sorted xs Hinc) as Hs.
  assert (L1 : mean (lastn 20 xs) < mean (lastn 5 xs))
    by (apply mean_lastn_lt; auto; lia).
  assert (L2 : mean (lastn 60 xs) < mean (lastn 20 xs))
    by (apply mean_lastn_lt; auto; lia).
  exists row. split; [exact Hrow|].
  rewrite <- and_assoc. split; [split|].
  - rewrite H5, H20. simpl. apply negb_true_iff, Qltb_false.
    now apply Qlt_le_weak.
  - rewrite H20, H60. simpl. apply negb_true_iff, Qltb_false.
    now apply Qlt_le_weak.
  - unfold trend_up, fgt. rewrite H5, H20, H60. simpl.
    apply andb_true_iff. split; now apply Qltb_true.
Qed.

(* ===================================================================== *)
(** ** Indicator engine: the smoothed averages *)
(* ===================================================================== *)

Section Ewm.

Variable a : Q.
Hypothesis decay_pos : 0 < 1 - a.

(** A smoothed average of non-negative entries is positive as soon as one
    of the entries seen so far is. *)
Lemma ewm_from_pos (xs : list Q) :
  forall (i : nat) (num den : Q),
    0 <= num -> 0 <= den ->
    (forall x, In x (firstn (S i) xs) -> 0 <= x) ->
    (i < length xs)%nat ->
    0 < num \/ Exists (fun x => 0 < x) (firstn (S i) xs) ->
    0 < nth i (ewm_from a num den xs) 0.
Proof.
  induction xs as [|x tl IH]; intros i num den Hn Hd Hx Hi Hpos;
    [simpl in Hi; lia|].
  assert (Hx0 : 0 <= x) by (apply Hx; now left).
  assert (Hrn : 0 <= (1 - a) * num)
    by (apply Qmult_le_0_compat; [now apply Qlt_le_weak|exact Hn]).
  assert (Hrd : 0 <= (1 - a) * den)
    by (apply Qmult_le_0_compat; [now apply Qlt_le_weak|exact Hd]).
  assert (Hn' : 0 <= Qred (x + (1 - a) * num))
    by (rewrite Qred_correct; lra).
  assert (Hd' : 0 < Qred (1 + (1 - a) * den))
    by (rewrite Qred_correct; lra).
  assert (Hstep : 0 < num \/ 0 < x -> 0 < Qred (x + (1 - a) * num)).
  { intros [P|P]; rewrite Qred_correct.
    - assert (0 < (1 - a) * num) by (now apply Qmult_lt_0_compat). lra.
    - lra. }
  destruct i as [|j]; cbn [nth ewm_from].
  - rewrite Qred_correct. apply Qlt_shift_div_l; [exact Hd'|].
    rewrite Qmult_0_l. apply Hstep.
    destruct Hpos as [P|P]; [now left|right].
    simpl in P. inversion P as [? ? P0|? ? P0]; subst;
      [exact P0|inversion P0].
  - apply IH.
    + exact Hn'.
    + now apply Qlt_le_weak.
    + intros y Hy. apply Hx. now right.
    + simpl in Hi. lia.
    + destruct Hpos as [P|P].
      * left. apply Hstep. now left.
      * change (firstn (S (S j)) (x :: tl)) with (x :: firstn (S j) tl) in P.
        inversion P as [? ? P0|? ? P0]; subst.
        -- left. apply Hstep. now right.
        -- now right.
Qed.

(** A smoothed average of zeros is zero. *)
Lemma ewm_from_zero (xs : list Q) :
  forall (i : nat) (num den : Q),
    num == 0 ->
    (forall x, In x (firstn (S i) xs) -> x == 0) ->
    nth i (ewm_from a num den xs) 0 == 0.
Proof.
  induction xs as [|x tl IH]; intros i num den Hn Hx.
  - destruct i; reflexivity.
  - assert (Hx0 : x == 0) by (apply Hx; now left).
    assert (Hn' : Qred (x + (1 - a) * num) == 0).
    { rewrite Qred_correct, Hx0, Hn. ring. }
    destruct i as [|j]; cbn [nth ewm_from].
    + rewrite Qred_correct, Hn'. unfold Qdiv. ring.
    + apply IH; [exact Hn'|]. intros y Hy. apply Hx. now right.
Qed.

End Ewm.

Lemma alpha_decay : 0 < 1 - alpha.
Proof. reflexivity. Qed.

Lemma gain_of_nonneg (d : option Q) : 0 <= gain_of d.
Proof.
  destruct d as [q|]; simpl; [|apply Qle_refl].
  destruct (Qltb 0 q) eqn:E; [|apply Qle_refl].
  apply Qlt_le_weak. now apply Qltb_true.
Qed.

Lemma loss_of_nonneg (d : option Q) : 0 <= loss_of d.
Proof.
  destruct d as [q|]; simpl; [|apply Qle_refl].
  destruct (Qltb q 0) eqn:E; [|apply Qle_refl].
  apply Qltb_true in E. lra.
Qed.

Lemma firstn_incl {A : Type} (k : nat) (l : list A) (x : A) :
  In x (firstn k l) -> In x l.
Proof.
  revert l. induction k as [|k IH]; intros [|y l] H; simpl in *;
    try contradiction.
  destruct H as [H|H]; auto.
Qed.

Lemma skipn_incl {A : Type} (k : nat) (l : list A) (x : A) :
  In x (skipn k l) -> In x l.
Proof.
  revert l. induction k as [|k IH]; intros [|y l] H; simpl in *;
    try contradiction; auto.
Qed.

(* ===================================================================== *)
(** ** Indicator engine: RSI of a rising series *)
(* ===================================================================== *)

Lemma diff_from_rising (xs : list Q) :
  forall p : Q,
    strictly_increasing (p :: xs) = true ->
    Forall (fun d => exists q, d = Some q /\ 0 < q) (diff_from p xs).
Proof.
  induction xs as [|x tl IH]; intros p H; [constructor|].
  change (strictly_increasing (p :: x :: tl))
    with (Qltb p x && strictly_increasing (x :: tl)) in H.
  apply andb_true_iff in H. destruct H as [Hpx Htl].
  apply Qltb_true in Hpx. simpl. constructor.
  - exists (x - p). split; [reflexivity|lra].
  - now apply IH.
Qed.

Lemma rising_no_loss (xs : list Q) :
  strictly_increasing xs = true ->
  forall l, In l (map loss_of (diff xs)) -> l == 0.
Proof.
  intros H l Hl. destruct xs as [|x tl]; [contradiction|].
  simpl in Hl. destruct Hl as [<-|Hl]; [reflexivity|].
  apply in_map_iff in Hl. destruct Hl as [d [<- Hd]].
  pose proof (diff_from_rising tl x H) as F. rewrite Forall_forall in F.
  destruct (F d Hd) as [q [-> Hq]]. simpl.
  assert (E : Qltb q 0 = false) by (apply Qltb_false; now apply Qlt_le_weak).
  rewrite E. reflexivity.
Qed.

Lemma rising_some_gain (xs : list Q) (i : nat) :
  strictly_increasing xs = true ->
  (1 <= i)%nat -> (i < length xs)%nat ->
  Exists (fun g => 0 < g) (firstn (S i) (map gain_of (diff xs))).
Proof.
  intros H Hi Hlen.
  destruct xs as [|x [|y tl]]; simpl in Hlen; try lia.
  destruct i as [|j]; [lia|].
  pose proof (diff_from_rising (y :: tl) x H) as F.
  inversion F as [|d ds [q [Hq Hpos]] _]; subst.
  change (firstn (S (S j)) (map gain_of (diff (x :: y :: tl))))
    with (gain_of None :: gain_of (Some (y - x))
            :: firstn j (map gain_of (diff_from y tl))).
  apply Exists_cons_tl, Exists_cons_hd.
  injection Hq as Hq. simpl.
  assert (E : Qltb 0 (y - x) = true) by (apply Qltb_true; rewrite Hq; exact Hpos).
  rewrite E, Hq. exact Hpos.
Qed.

(** From the second row on, the RSI of a strictly rising series is 100:
    there are gains and no losses. *)
Lemma rising_rsi_100 (df : list Bar) (i : nat) (row : IndicatorRow) :
  strictly_increasing (map close df) = true ->
  (1 <= i)%nat ->
  nth_error (calculate_indicators df) i = Some row ->
  RSI row = Fin 100.
Proof.
  intros H Hi Hrow.
  assert (L : (i < length (map close df))%nat).
  { rewrite length_map, <- calculate_indicators_length.
    apply nth_error_Some. congruence. }
  rewrite (rsi_row df i row Hrow).
  assert (Hl : nth i (avg_loss (map close df)) 0 == 0).
  { unfold avg_loss, ewm_mean. apply ewm_from_zero; [reflexivity|].
    intros l Hin. apply firstn_incl in Hin.
    now apply (rising_no_loss (map close df) H). }
  assert (Hg : 0 < nth i (avg_gain (map close df)) 0).
  { unfold avg_gain, ewm_mean. apply ewm_from_pos.
    - exact alpha_decay.
    - apply Qle_refl.
    - apply Qle_refl.
    - intros g Hin. apply firstn_incl in Hin. apply in_map_iff in Hin.
      destruct Hin as [d [<- _]]. apply gain_of_nonneg.
    - now rewrite length_map, diff_length.
    - right. now apply rising_some_gain. }
  rewrite (rsi_of_zero_loss _ _ Hl).
  assert (E : Qzerob (nth i (avg_gain (map close df)) 0) = false).
  { destruct (Qzerob _) eqn:Z; [|reflexivity].
    apply Qzerob_true in Z. rewrite Z in Hg. discriminate Hg. }
  now rewrite E.
Qed.

(** With at least 60 strictly rising closes the decision of the empty state
    is the advisory buy at the latest close: the trend test holds and the
    RSI, being 100, is not below 70. *)
Lemma rising_closes_advisory_buy (self : TradingSystem) (df : list Bar)
    (b : Bar) :
  (60 <= length df)%nat ->
  strictly_increasing (map close df) = true ->
  position self = 0%Z ->
  iloc_last df = Ok b ->
  generate_daily_signal self (calculate_indicators df) =
    Ok (advisory buy (Fin (close b))).
Proof.
  intros Hlen Hinc Hp Hb.
  assert (Hne : df <> []) by (intros ->; simpl in Hlen; lia).
  destruct (last_row df Hne) as [b' [row [Hb1 [Hrow [Hb' [Hnth Hbar]]]]]].
  assert (E : b' = b) by congruence. rewrite E in Hbar.
  assert (R : RSI row = Fin 100)
    by (apply (rising_rsi_100 df (length df - 1) row Hinc); [lia|exact Hnth]).
  destruct (rising_trend_up df Hlen Hinc) as [latest [HL [_ [_ T]]]].
  assert (latest = row) by congruence. subst latest.
  rewrite (generate_flat self _ row Hrow Hp). cbv zeta.
  rewrite T, R, Hbar. reflexivity.
Qed.

(* ===================================================================== *)
(** ** Indicator engine: when the RSI is missing *)
(* ===================================================================== *)

Lemma rsi_of_nan (g l : Q) : rsi_of g l = NaN -> g == 0 /\ l == 0.
Proof.
  unfold rsi_of. intro H.
  destruct (Qzerob l) eqn:Zl.
  - split; [|now apply Qzerob_true].
    apply Qzerob_true. unfold fdiv at 2 in H. rewrite Zl in H.
    destruct (Qzerob g); [reflexivity|discriminate H].
  - exfalso. unfold fdiv at 2 in H. rewrite Zl in H.
    cbn [fadd fdiv] in H.
    destruct (Qzerob (Qred (1 + Qred (g / l)))); discriminate H.
Qed.

Lemma ewm_zero_no_positive (xs : list Q) (i : nat) :
  (forall x, In x xs -> 0 <= x) ->
  (i < length xs)%nat ->
  nth i (ewm_mean alpha xs) 0 == 0 ->
  Forall (fun x => ~ 0 < x) (firstn (S i) xs).
Proof.
  intros Hx Hi Hz. apply Forall_Exists_neg. intro E.
  assert (P : 0 < nth i (ewm_mean alpha xs) 0).
  { unfold ewm_mean. apply ewm_from_pos.
    - exact alpha_decay.
    - apply Qle_refl.
    - apply Qle_refl.
    - intros x Hin. apply Hx. now apply firstn_incl in Hin.
    - exact Hi.
    - now right. }
  rewrite Hz in P. discriminate P.
Qed.

(** Entries of [diff] that are neither gains nor losses. *)
Lemma no_gain_no_loss (d : option Q) :
  ~ 0 < gain_of d -> ~ 0 < loss_of d ->
  match d with Some q => q == 0 | None => True end.
Proof.
  destruct d as [q|]; [|trivial]. simpl. intros Hg Hl.
  destruct (Qltb 0 q) eqn:E1.
  - apply Qltb_true in E1. contradiction.
  - destruct (Qltb q 0) eqn:E2.
    + apply Qltb_true in E2. exfalso. apply Hl. lra.
    + apply Qltb_false in E1. apply Qltb_false in E2. now apply Qle_antisym.
Qed.

Lemma diff_from_flat (tl : list Q) :
  forall (p : Q) (i : nat),
    Forall (fun d => match d with Some q => q == 0 | None => True end)
           (firstn i (diff_from p tl)) ->
    forall y, In y (firstn i tl) -> y == p.
Proof.
  induction tl as [|x tl IH]; intros p i F y Hy.
  - destruct i; contradiction.
  - destruct i as [|j]; [contradiction|].
    simpl in F. inversion F as [|d ds Hd Hds]; subst.
    assert (Hxp : x == p) by lra.
    destruct Hy as [<-|Hy]; [exact Hxp|].
    rewrite <- Hxp. now apply (IH x j).
Qed.

(** The closes up to a row whose RSI is NaN are all equal. *)
Lemma nan_rsi_flat_closes (df : list Bar) (i : nat) (row : IndicatorRow) :
  nth_error (calculate_indicators df) i = Some row ->
  RSI row = NaN ->
  exists c, forall y, In y (firstn (S i) (map close df)) -> y == c.
Proof.
  intros Hrow Hnan.
  assert (L : (i < length (map close df))%nat).
  { rewrite length_map, <- calculate_indicators_length.
    apply nth_error_Some. congruence. }
  rewrite (rsi_row df i row Hrow) in Hnan.
  apply rsi_of_nan in Hnan. destruct Hnan as [Hg Hl].
  set (xs := map close df) in *.
  apply ewm_zero_no_positive in Hg;
    [| intros g Hin; apply in_map_iff in Hin; destruct Hin as [d [<- _]];
       apply gain_of_nonneg
     | now rewrite length_map, diff_length ].
  apply ewm_zero_no_positive in Hl;
    [| intros g Hin; apply in_map_iff in Hin; destruct Hin as [d [<- _]];
       apply loss_of_nonneg
     | now rewrite length_map, diff_length ].
  rewrite firstn_map, Forall_map in Hg, Hl.
  destruct xs as [|x tl]; [simpl in L; lia|].
  exists x. intros y Hy.
  change (firstn (S i) (x :: tl)) with (x :: firstn i tl) in Hy.
  destruct Hy as [<-|Hy]; [reflexivity|].
  apply (diff_from_flat tl x i); [|exact Hy].
  change (firstn (S i) (diff (x :: tl)))
    with (None :: firstn i (diff_from x tl)) in Hg, Hl.
  inversion Hg as [|d ds _ Hg']; inversion Hl as [|d' ds' _ Hl']; subst.
  rewrite Forall_forall in *. intros d Hd.
  apply no_gain_no_loss; [now apply Hg'|now apply Hl'].
Qed.

Lemma mean_const (w : list Q) (c : Q) :
  w <> [] -> (forall x, In x w -> x == c) -> mean w == c.
Proof.
  intros Hne H. unfold mean. rewrite Qred_correct.
  assert (U : sumQ w <= inject_Z (Z.of_nat (length w)) * c).
  { apply sumQ_upper. intros x Hx. rewrite (H x Hx). apply Qle_refl. }
  assert (D : inject_Z (Z.of_nat (length w)) * c <= sumQ w).
  { apply sumQ_lower. intros x Hx. rewrite (H x Hx). apply Qle_refl. }
  assert (P : 0 < inject_Z (Z.of_nat (length w))).
  { change 0 with (inject_Z 0). rewrite <- Zlt_Qlt.
    destruct w; [congruence|simpl; lia]. }
  rewrite (Qle_antisym _ _ U D). field. lra.
Qed.

Lemma rolling_mean_const (k : nat) (xs : list Q) (i : nat) (c : Q) :
  (0 < k)%nat -> (i < length xs)%nat ->
  (forall y, In y (firstn (S i) xs) -> y == c) ->
  nth i (rolling k mean xs) NaN = NaN \/
  exists m, nth i (rolling k mean xs) NaN = Fin m /\ m == c.
Proof.
  intros Hk Hi Hc. rewrite rolling_nth by exact Hi.
  destruct (k <=? S i)%nat eqn:E; [right|now left].
  apply Nat.leb_le in E. eexists. split; [reflexivity|].
  apply mean_const.
  - intro Z. apply (f_equal (@length Q)) in Z.
    rewrite lastn_length in Z by (rewrite length_firstn; lia).
    simpl in Z. lia.
  - intros y Hy. apply Hc. unfold lastn in Hy. now apply skipn_incl in Hy.
Qed.

(** A row computed by the engine whose RSI is NaN never passes the trend
    test: its averages, where defined, are equal. *)
Lemma engine_nan_rsi_no_trend (df : list Bar) (i : nat) (row : IndicatorRow) :
  nth_error (calculate_indicators df) i = Some row ->
  RSI row = NaN ->
  trend_up row = false.
Proof.
  intros Hrow Hnan.
  destruct (nan_rsi_flat_closes df i row Hrow Hnan) as [c Hc].
  assert (L : (i < length df)%nat).
  { rewrite <- calculate_indicators_length. apply nth_error_Some. congruence. }
  destruct (nth_error df i) as [b|] eqn:Hb;
    [|apply nth_error_None in Hb; lia].
  destruct (calculate_indicators_nth df i b Hb)
    as [row' [Hrow' [_ [H5 [H20 _]]]]].
  assert (row' = row) by congruence. subst row'.
  assert (Lx : (i < length (map close df))%nat) by (now rewrite length_map).
  unfold trend_up, fgt. rewrite H5, H20.
  destruct (rolling_mean_const 5 _ i c (Nat.lt_0_succ _) Lx Hc)
    as [->|[m5 [-> E5]]]; [now rewrite flt_nan_r|].
  destruct (rolling_mean_const 20 _ i c (Nat.lt_0_succ _) Lx Hc)
    as [->|[m20 [-> E20]]]; [reflexivity|].
  simpl.
  assert (E : Qltb m20 m5 = false).
  { apply Qltb_false. rewrite E5, E20. apply Qle_refl. }
  now rewrite E.
Qed.

(** On the frame computed by the engine, a latest row with a missing
    average or a missing RSI makes the empty state return the advisory
    sell. *)
Lemma engine_missing_values_sell (self : TradingSystem) (df : list Bar)
    (b : Bar) (latest : IndicatorRow) :
  iloc_last df = Ok b ->
  iloc_last (calculate_indicators df) = Ok latest ->
  position self = 0%Z ->
  is_nan (MA5 latest) || is_nan (MA20 latest) || is_nan (MA60 latest)
    || is_nan (RSI latest) = true ->
  generate_daily_signal self (calculate_indicators df) =
    Ok (advisory sell (Fin (close b))).
Proof.
  intros Hb Hl Hp Hnan.
  assert (Hne : df <> []) by (intros ->; discriminate).
  destruct (last_row df Hne) as [b' [row [Hb1 [Hrow [_ [Hnth Hbar]]]]]].
  assert (E : b' = b) by congruence. rewrite E in Hbar.
  assert (row = latest) by congruence. subst row.
  assert (T : trend_up latest = false).
  { apply orb_true_iff in Hnan. destruct Hnan as [H|H].
    - now apply trend_up_nan.
    - apply is_nan_true in H.
      now apply (engine_nan_rsi_no_trend df _ latest Hnth). }
  rewrite (generate_flat self _ latest Hl Hp). cbv zeta.
  rewrite T, Hbar. reflexivity.
Qed.

(* ===================================================================== *)
(** ** RSI when the smoothed loss is zero *)
(* ===================================================================== *)

(** C3, as stated, fails: with constant closes the smoothed loss and the
    smoothed gain are both zero and the RSI is NaN, not 100. *)
Lemma C3_constant_closes_nan :
  nth 2 (avg_loss (map close constant_bars)) 0 == 0 /\
  nth 2 (avg_gain (map close constant_bars)) 0 == 0 /\
  map RSI (calculate_indicators constant_bars) = [NaN; NaN; NaN].
Proof. repeat split; reflexivity. Qed.

(** C3 (amended): at a row where the smoothed average loss is zero, the RSI
    is 100 when the smoothed average gain is not zero, and NaN when it is
    zero as well; nothing is raised either way.  The RSI of the first row
    is always NaN, and the RSI of any row is NaN only if the closes up to
    that row are all equal. *)
Theorem C3_rsi_zero_avg_loss :
  (forall (df : list Bar) (i : nat) (row : IndicatorRow),
      nth_error (calculate_indicators df) i = Some row ->
      nth i (avg_loss (map close df)) 0 == 0 ->
      RSI row =
        if Qzerob (nth i (avg_gain (map close df)) 0) then NaN else Fin 100) /\
  (forall (df : list Bar) (row : IndicatorRow),
      nth_error (calculate_indicators df) 0 = Some row ->
      RSI row = NaN) /\
  (forall (df : list Bar) (i : nat) (row : IndicatorRow),
      nth_error (calculate_indicators df) i = Some row ->
      RSI row = NaN ->
      exists c, forall y, In y (firstn (S i) (map close df)) -> y == c).
Proof.
  split; [|split].
  - intros df i row Hrow Hl.
    rewrite (rsi_row df i row Hrow). now apply rsi_of_zero_loss.
  - intros df row Hrow. rewrite (rsi_row df 0 row Hrow).
    destruct df as [|b df]; [discriminate|]. reflexivity.
  - exact nan_rsi_flat_closes.
Qed.

Lemma C3_rsi_zero_avg_loss_witness :
  exists row,
    nth_error (calculate_indicators three_bars) 2 = Some row /\
    RSI row = Fin 100.
Proof.
  eexists. split; [reflexivity|].
  apply (proj1 C3_rsi_zero_avg_loss three_bars 2%nat); reflexivity.
Defined.

(* ===================================================================== *)
(** ** Missing values in the empty state *)
(* ===================================================================== *)

(** C10, as stated, fails: when only the RSI is missing and the averages are
    in rising order, the decision returned is the advisory buy, not the
    advisory sell. *)
Lemma C10_missing_rsi_buys :
  is_nan (RSI no_rsi_row) = true /\
  trend_up no_rsi_row = true /\
  generate_daily_signal init [no_rsi_row] = Ok (advisory buy (Fin 10)).
Proof. repeat split; reflexivity. Qed.

(** C10 (amended): in the empty state the generator returns a decision on
    rows with missing indicators, since every comparison with a missing
    value is false.  If one of MA5, MA20, MA60 is missing, the trend test is
    false and the decision is the advisory sell at close with stop
    close*0.98 and target close*1.03.  If the RSI is missing, the RSI < 70
    test is false and the decision is the advisory one at the same three
    levels, a buy when MA5 > MA20 > MA60 and a sell otherwise.  On a frame
    computed by the indicator engine the RSI is missing only while the
    closes have not moved, so there the decision is the advisory sell in
    every case. *)
Theorem C10_missing_values_flat :
  (forall (self : TradingSystem) (rows : list IndicatorRow)
          (latest : IndicatorRow),
      iloc_last rows = Ok latest ->
      position self = 0%Z ->
      let c := Fin (close (bar latest)) in
      (is_nan (MA5 latest) || is_nan (MA20 latest) || is_nan (MA60 latest)
         = true ->
       trend_up latest = false /\
       generate_daily_signal self rows = Ok (advisory sell c)) /\
      (is_nan (RSI latest) = true ->
       flt (RSI latest) (Fin 70) = false /\
       generate_daily_signal self rows =
         Ok (advisory (if trend_up latest then buy else sell) c))) /\
  (forall (self : TradingSystem) (df : list Bar) (b : Bar)
          (latest : IndicatorRow),
      iloc_last df = Ok b ->
      iloc_last (calculate_indicators df) = Ok latest ->
      position self = 0%Z ->
      is_nan (MA5 latest) || is_nan (MA20 latest) || is_nan (MA60 latest)
        || is_nan (RSI latest) = true ->
      generate_daily_signal self (calculate_indicators df) =
        Ok (advisory sell (Fin (close b)))).
Proof.
  split.
  - intros self rows latest Hl Hp c.
    rewrite (generate_flat self rows latest Hl Hp). cbv zeta.
    fold c. split.
    + intro H. apply trend_up_nan in H. rewrite H. simpl. auto.
    + intro H. apply is_nan_true in H. rewrite H. rewrite flt_nan_l.
      rewrite andb_false_r. auto.
  - exact engine_missing_values_sell.
Qed.

Lemma C10_missing_values_flat_witness :
  trend_up warmup_row = false /\
  generate_daily_signal init [warmup_row] = Ok (advisory sell (Fin 10)).
Proof.
  apply (proj1 C10_missing_values_flat init [warmup_row] warmup_row);
    reflexivity.
Defined.

(* ===================================================================== *)
(** ** One run of the strategy *)
(* ===================================================================== *)

(** When the generator raises, the run leaves the state as it was. *)
Lemma run_failure_keeps_state (now : Z) (self : TradingSystem)
    (df : list Bar) (e : PyExc) :
  generate_daily_signal self (calculate_indicators df) = Raise e ->
  run_daily_strategy now self (Ok df) = (self, [Failure e]).
Proof.
  intro H. unfold run_daily_strategy, run_body. rewrite H. reflexivity.
Qed.

(** A run on a non-empty frame in the empty state applies the decision and
    then stops at the last [print]: the decisions of the empty state carry
    no reason. *)
Lemma run_flat_ends_in_key_error (now : Z) (self : TradingSystem)
    (df : list Bar) :
  df <> [] ->
  position self = 0%Z ->
  exists signal printed,
    generate_daily_signal self (calculate_indicators df) = Ok signal /\
    run_daily_strategy now self (Ok df) =
      (execute_trade now self signal,
       printed ++ [Failure (KeyError "reason")]).
Proof.
  intros Hne Hp.
  destruct (last_row df Hne) as [b [row [Hb [Hrow _]]]].
  assert (G : exists signal,
             generate_daily_signal self (calculate_indicators df) = Ok signal
             /\ reason signal = None).
  { rewrite (generate_flat self _ row Hrow Hp). cbv zeta.
    destruct (trend_up row && flt (RSI row) (Fin 70));
      eexists; split; reflexivity. }
  destruct G as [signal [G R]].
  exists signal. eexists. split; [exact G|].
  unfold run_daily_strategy, run_body. rewrite G, Hb, R. reflexivity.
Qed.

(* ===================================================================== *)
(** ** Position tracker: the trade log *)
(* ===================================================================== *)

Lemma replay_snoc (log : list Trade) (t : Trade) :
  replay (log ++ [t]) = replay_step (replay log) t.
Proof. unfold replay. now rewrite fold_left_app. Qed.

Lemma execute_trade_replay_step (now : Z) (self : TradingSystem)
    (signal : Signal) :
  position_state (execute_trade now self signal) =
    replay_step (position_state self)
      {| trade_datetime := now; trade_action := action signal;
         trade_price := price signal; trade_position := position self |}.
Proof.
  unfold position_state, execute_trade, replay_step. simpl.
  destruct (action signal); reflexivity.
Qed.

(** X1: applying a list of signals only appends to the trade log: the old
    entries stay in front, one entry is added per signal, and the added
    entries record the actions and prices of the signals in order. *)
Theorem X1_trade_log_append_only (now : Z) (signals : list Signal) :
  forall self : TradingSystem,
  exists entries,
    trade_log (execute_trades now self signals) = trade_log self ++ entries /\
    length entries = length signals /\
    map trade_action entries = map action signals /\
    map trade_price entries = map price signals.
Proof.
  induction signals as [|s tl IH]; intro self.
  - exists []. simpl. rewrite app_nil_r. auto.
  - simpl. destruct (IH (execute_trade now self s)) as [es [E1 [E2 [E3 E4]]]].
    rewrite execute_trade_log in E1.
    eexists (_ :: es). rewrite E1, <- app_assoc. simpl.
    rewrite E2, E3, E4. auto.
Qed.

(** X2: in every state reached from the initial one, the position state is
    the one the trade log stands for, and every entry records as position
    the one the entries before it stand for. *)
Theorem X2_log_determines_state (self : TradingSystem) :
  reachable self ->
  position_state self = replay (trade_log self) /\
  (forall pre t post,
      trade_log self = pre ++ t :: post ->
      trade_position t = fst (replay pre)).
Proof.
  intro R. induction R as [|now self signal R [IH1 IH2]].
  - split; [reflexivity|]. intros pre t post H.
    destruct pre; discriminate H.
  - split.
    + rewrite execute_trade_log, replay_snoc, <- IH1.
      apply execute_trade_replay_step.
    + intros pre t post H. rewrite execute_trade_log in H.
      destruct post as [|x post'] using rev_ind.
      * apply app_inj_tail in H. destruct H as [<- <-]. simpl.
        rewrite <- IH1. reflexivity.
      * clear IHpost'.
        change (pre ++ t :: post' ++ [x]) with (pre ++ (t :: post') ++ [x]) in H.
        rewrite app_assoc in H. apply app_inj_tail in H. destruct H as [H _].
        now apply (IH2 pre t post').
Qed.

Lemma X2_log_determines_state_witness :
  position_state
    (execute_trade 2 (execute_trade 1 init (advisory buy (Fin 10)))
       (advisory sell (Fin 11)))
  = replay
      (trade_log
         (execute_trade 2 (execute_trade 1 init (advisory buy (Fin 10)))
            (advisory sell (Fin 11)))).
Proof.
  apply X2_log_determines_state.
  apply reach_step, reach_step, reach_init.
Defined.

Lemma reachable_price_iff_long (self : TradingSystem) :
  reachable self -> price_iff_long self.
Proof.
  intro R. induction R as [|now self signal R IH].
  - unfold price_iff_long. simpl. split; intro H; [congruence|discriminate].
  - now apply execute_trade_preserves.
Qed.

Lemma reachable_position (self : TradingSystem) :
  reachable self -> position self = 0%Z \/ position self = 1%Z.
Proof.
  intro R. induction R as [|now self signal R IH]; [now left|].
  unfold execute_trade. destruct (action signal); simpl; auto.
Qed.

Lemma run_reachable (now : Z) (self : TradingSystem)
    (fetched : result (list Bar)) :
  reachable self -> reachable (fst (run_daily_strategy now self fetched)).
Proof.
  intro R. unfold run_daily_strategy. destruct fetched as [df|e]; [|exact R].
  unfold run_body.
  destruct (generate_daily_signal self (calculate_indicators df)) as [s|e];
    [|exact R].
  assert (R' : reachable (execute_trade now self s)) by (now apply reach_step).
  destruct (iloc_last df); [|exact R'].
  destruct (reason s); exact R'.
Qed.

(** X3: whatever the days bring, after any number of runs started on a
    fresh object the position is 0 or 1, a trade price is recorded exactly
    when it is 1, and the generator returns a decision on every non-empty
    frame: the [TypeError] of a holding state without a price cannot
    occur. *)
Theorem X3_runs_keep_generator_total (days : list (Z * result (list Bar))) :
  let self := run_days init days in
  (position self = 0%Z \/ position self = 1%Z) /\
  price_iff_long self /\
  (forall rows : list IndicatorRow,
      rows <> [] -> exists s, generate_daily_signal self rows = Ok s).
Proof.
  assert (R : reachable (run_days init days)).
  { generalize init reach_init. induction days as [|[now fetched] tl IH];
      intros self R; [exact R|].
    simpl. apply IH. now apply run_reachable. }
  cbv zeta. set (self := run_days init days) in *.
  pose proof (reachable_position self R) as P.
  pose proof (reachable_price_iff_long self R) as I.
  split; [exact P|]. split; [exact I|].
  intros rows Hne. destruct (iloc_last_nonempty rows Hne) as [latest Hl].
  destruct P as [P|P].
  - rewrite (generate_flat self rows latest Hl P). cbv zeta.
    destruct (trend_up latest && flt (RSI latest) (Fin 70)); eexists;
      reflexivity.
  - destruct (last_trade_price self) as [ltp|] eqn:Ht.
    + assert (Hp : position self <> 0%Z) by (rewrite P; discriminate).
      rewrite (generate_long self rows latest ltp Hl Hp Ht). cbv zeta.
      destruct (fgt _ _ || fgt _ _); [eexists; reflexivity|].
      destruct (flt _ _); eexists; reflexivity.
    + exfalso. apply I in P. now apply P.
Qed.

(* ===================================================================== *)
(** ** Signal generator: shape of the decisions and thresholds *)
(* ===================================================================== *)

Lemma decision_shape (self : TradingSystem) (rows : list IndicatorRow)
    (s : Signal) :
  generate_daily_signal self rows = Ok s ->
  if (position self =? 0)%Z then
    action s <> hold /\ stop_loss s <> None /\ target s <> None /\
    reason s = None
  else
    action s <> buy /\ stop_loss s = None /\ target s = None /\
    reason s <> None.
Proof.
  intro H.
  destruct (iloc_last rows) as [latest|e] eqn:Hl;
    [|unfold generate_daily_signal in H; rewrite Hl in H; discriminate H].
  destruct (Z.eq_dec (position self) 0) as [Hp|Hp].
  - rewrite (generate_flat self rows latest Hl Hp) in H. cbv zeta in H.
    rewrite Hp. simpl.
    destruct (trend_up latest && flt (RSI latest) (Fin 70)).
    + inversion H; subst s. simpl. repeat split; discriminate.
    + inversion H; subst s. simpl.
      repeat split; try discriminate. destruct (trend_up latest); discriminate.
  - assert (Hb : (position self =? 0)%Z = false) by (now apply Z.eqb_neq).
    rewrite Hb.
    destruct (last_trade_price self) as [ltp|] eqn:Ht.
    + rewrite (generate_long self rows latest ltp Hl Hp Ht) in H.
      cbv zeta in H.
      destruct (fgt _ _ || fgt _ _).
      { inversion H; subst s. simpl. repeat split; discriminate. }
      destruct (flt _ _); inversion H; subst s; simpl;
        repeat split; discriminate.
    + unfold generate_daily_signal in H. rewrite Hl in H. simpl in H.
      rewrite Hb, Ht in H. discriminate H.
Qed.

(** X4: what the generator never returns.  In the empty state the decision
    is a buy or a sell, never a hold; it carries a stop and a target and no
    reason.  In a holding state the decision is a sell or a hold, never a
    buy; it carries a reason and neither stop nor target. *)
Theorem X4_decision_shape (self : TradingSystem) (rows : list IndicatorRow)
    (s : Signal) :
  generate_daily_signal self rows = Ok s ->
  if (position self =? 0)%Z then
    action s <> hold /\ stop_loss s <> None /\ target s <> None /\
    reason s = None
  else
    action s <> buy /\ stop_loss s = None /\ target s = None /\
    reason s <> None.
Proof. apply decision_shape. Qed.

Lemma X4_decision_shape_witness :
  action (advisory sell (Fin 10)) <> hold /\
  stop_loss (advisory sell (Fin 10)) <> None /\
  target (advisory sell (Fin 10)) <> None /\
  reason (advisory sell (Fin 10)) = None.
Proof.
  apply (X4_decision_shape init [warmup_row] (advisory sell (Fin 10))).
  reflexivity.
Defined.

(** X5: one cycle of generating and applying.  From the empty state the
    position becomes long, at the emitted price, exactly when the trend test
    holds at the latest row, and stays empty otherwise.  From a holding
    state the cycle never buys again: the position state is emptied by a
    sell and left as it is by a hold. *)
Theorem X5_cycle_transition (now : Z) (self : TradingSystem)
    (rows : list IndicatorRow) (latest : IndicatorRow) (s : Signal) :
  iloc_last rows = Ok latest ->
  generate_daily_signal self rows = Ok s ->
  position_state (execute_trade now self s) =
    if (position self =? 0)%Z then
      if trend_up latest then (1%Z, Some (price s)) else (0%Z, None)
    else
      match action s with
      | sell => (0%Z, None)
      | _ => position_state self
      end.
Proof.
  intros Hl H.
  pose proof (decision_shape self rows s H) as Sh.
  destruct (Z.eq_dec (position self) 0) as [Hp|Hp].
  - rewrite (generate_flat self rows latest Hl Hp) in H. cbv zeta in H.
    rewrite Hp. simpl.
    destruct (trend_up latest) eqn:T; simpl in H.
    + destruct (flt (RSI latest) (Fin 70)); inversion H; subst s; reflexivity.
    + inversion H; subst s. reflexivity.
  - assert (Hb : (position self =? 0)%Z = false) by (now apply Z.eqb_neq).
    rewrite Hb in *. destruct Sh as [Sh _].
    unfold position_state, execute_trade.
    destruct (action s); [congruence|reflexivity|reflexivity].
Qed.

Lemma X5_cycle_transition_witness :
  position_state (execute_trade 5 init (advisory sell (Fin 10))) = (0%Z, None).
Proof.
  apply (X5_cycle_transition 5 init [warmup_row] warmup_row
           (advisory sell (Fin 10))); reflexivity.
Defined.

Lemma Qltb_ext (a b c d : Q) : (a < b <-> c < d) -> Qltb a b = Qltb c d.
Proof.
  intro H. destruct (Qltb a b) eqn:E1; destruct (Qltb c d) eqn:E2;
    try reflexivity.
  - apply Qltb_true in E1. apply H in E1. apply Qltb_true in E1. congruence.
  - apply Qltb_true in E2. apply H in E2. apply Qltb_true in E2. congruence.
Qed.

(** The return on a positive purchase price, against a threshold [t]. *)
Lemma return_vs_threshold (c p t : Q) :
  0 < p ->
  let x := Qred (Qred (c - p) / p) in
  (t < x <-> (1 + t) * p < c) /\ (x < t <-> c < (1 + t) * p).
Proof.
  intros Hp x.
  assert (Hx : x * p == c - p).
  { unfold x. rewrite !Qred_correct. field. lra. }
  split; split; intro H.
  - assert (t * p < x * p) by (apply Qmult_lt_compat_r; assumption). lra.
  - destruct (Qlt_le_dec t x) as [L|L]; [exact L|].
    assert (x * p <= t * p)
      by (apply Qmult_le_compat_r; [exact L|now apply Qlt_le_weak]).
    lra.
  - assert (x * p < t * p) by (apply Qmult_lt_compat_r; assumption). lra.
  - destruct (Qlt_le_dec x t) as [L|L]; [exact L|].
    assert (t * p <= x * p)
      by (apply Qmult_le_compat_r; [exact L|now apply Qlt_le_weak]).
    lra.
Qed.

(** X6: the holding state's tests in terms of prices.  When the recorded
    purchase price [p] is a positive number, the return exceeds 0.03 exactly
    when close > 1.03*p and is below -0.02 exactly when close < 0.98*p: the
    decision is the take-profit sell if close > 1.03*p or RSI > 70,
    otherwise the stop-loss sell if close < 0.98*p, otherwise a hold. *)
Theorem X6_thresholds_in_prices (self : TradingSystem)
    (rows : list IndicatorRow) (latest : IndicatorRow) (p : Q) :
  iloc_last rows = Ok latest ->
  position self <> 0%Z ->
  last_trade_price self = Some (Fin p) ->
  0 < p ->
  let c := close (bar latest) in
  generate_daily_signal self rows =
    Ok (if Qltb (1.03 * p) c || fgt (RSI latest) (Fin 70)
        then {| action := sell; price := fmul (Fin c) (Fin 1.005);
                stop_loss := None; target := None;
                reason := Some take_profit_reason |}
        else if Qltb c (0.98 * p)
        then {| action := sell; price := fmul (Fin c) (Fin 0.995);
                stop_loss := None; target := None;
                reason := Some stop_loss_reason |}
        else {| action := hold; price := Fin c;
                stop_loss := None; target := None;
                reason := Some hold_reason |}).
Proof.
  intros Hl Hpos Ht Hp c.
  rewrite (generate_long self rows latest (Fin p) Hl Hpos Ht). cbv zeta.
  fold c.
  assert (Z : Qzerob p = false).
  { destruct (Qzerob p) eqn:E; [|reflexivity].
    apply Qzerob_true in E. rewrite E in Hp. discriminate Hp. }
  assert (E : fdiv (fsub (Fin c) (Fin p)) (Fin p)
              = Fin (Qred (Qred (c - p) / p))).
  { cbn [fsub fdiv]. now rewrite Z. }
  rewrite E. clear E.
  destruct (return_vs_threshold c p 0.03 Hp) as [G _].
  destruct (return_vs_threshold c p (-0.02) Hp) as [_ L].
  cbv zeta in G, L.
  assert (EG : fgt (Fin (Qred (Qred (c - p) / p))) (Fin 0.03)
               = Qltb (1.03 * p) c).
  { unfold fgt. cbn [flt]. apply Qltb_ext. rewrite G. split; intro; lra. }
  assert (EL : flt (Fin (Qred (Qred (c - p) / p))) (Fin (-0.02))
               = Qltb c (0.98 * p)).
  { cbn [flt]. apply Qltb_ext. rewrite L. split; intro; lra. }
  rewrite EG, EL.
  destruct (Qltb (1.03 * p) c || fgt (RSI latest) (Fin 70)); [reflexivity|].
  destruct (Qltb c (0.98 * p)); reflexivity.
Qed.

Lemma X6_thresholds_in_prices_witness :
  generate_daily_signal (holding (Fin 10)) [long_scenario_row 10.2 (dbl 60)] =
    Ok {| action := hold; price := Fin 10.2;
          stop_loss := None; target := None;
          reason := Some hold_reason |}.
Proof.
  apply (X6_thresholds_in_prices (holding (Fin 10))
           [long_scenario_row 10.2 (dbl 60)] (long_scenario_row 10.2 (dbl 60))
           10);
    [reflexivity|discriminate|reflexivity|reflexivity].
Defined.

(* ===================================================================== *)
(** ** Indicator engine: rows, prefixes and ranges *)
(* ===================================================================== *)

Lemma calculate_indicators_row_at (df : list Bar) (i : nat) (b : Bar) :
  nth_error df i = Some b ->
  nth_error (calculate_indicators df) i = Some (row_at df i b).
Proof.
  intro H. unfold calculate_indicators.
  rewrite nth_error_map, nth_error_combine_seq, H. reflexivity.
Qed.

Lemma calculate_indicators_none (df : list Bar) (i : nat) :
  nth_error df i = None -> nth_error (calculate_indicators df) i = None.
Proof.
  intro H. apply nth_error_None. rewrite calculate_indicators_length.
  now apply nth_error_None.
Qed.

(** X7: the engine returns one row per bar, in the same order, each row
    carrying its bar unchanged. *)
Theorem X7_rows_keep_bars (df : list Bar) :
  map bar (calculate_indicators df) = df.
Proof.
  apply nth_error_ext. intro i. rewrite nth_error_map.
  destruct (nth_error df i) as [b|] eqn:Hb.
  - now rewrite (calculate_indicators_row_at df i b Hb).
  - now rewrite (calculate_indicators_none df i Hb).
Qed.

Lemma rolling_prefix (k : nat) (agg : list Q -> Q) (xs : list Q) (n i : nat) :
  (i < n)%nat ->
  nth i (rolling k agg (firstn n xs)) NaN = nth i (rolling k agg xs) NaN.
Proof.
  intro Hi. destruct (Nat.lt_ge_cases i (length xs)) as [L|L].
  - rewrite !rolling_nth by (try rewrite length_firstn; lia).
    rewrite firstn_firstn. now replace (Nat.min (S i) n) with (S i) by lia.
  - rewrite !nth_overflow; try reflexivity; rewrite rolling_length;
      try rewrite length_firstn; lia.
Qed.

Lemma ewm_from_firstn (a : Q) (xs : list Q) :
  forall (n : nat) (num den : Q),
    ewm_from a num den (firstn n xs) = firstn n (ewm_from a num den xs).
Proof.
  induction xs as [|x tl IH]; intros n num den.
  - now rewrite !firstn_nil.
  - destruct n as [|n]; [reflexivity|]. simpl. now rewrite IH.
Qed.

Lemma diff_from_firstn (xs : list Q) :
  forall (n : nat) (p : Q),
    diff_from p (firstn n xs) = firstn n (diff_from p xs).
Proof.
  induction xs as [|x tl IH]; intros n p.
  - now rewrite !firstn_nil.
  - destruct n as [|n]; [reflexivity|]. simpl. now rewrite IH.
Qed.

Lemma diff_firstn (xs : list Q) (n : nat) :
  diff (firstn n xs) = firstn n (diff xs).
Proof.
  destruct xs as [|x tl]; [now rewrite !firstn_nil|].
  destruct n as [|n]; [reflexivity|]. simpl. now rewrite diff_from_firstn.
Qed.

Lemma avg_gain_firstn (xs : list Q) (n : nat) :
  avg_gain (firstn n xs) = firstn n (avg_gain xs).
Proof.
  unfold avg_gain, ewm_mean.
  now rewrite diff_firstn, <- firstn_map, ewm_from_firstn.
Qed.

Lemma avg_loss_firstn (xs : list Q) (n : nat) :
  avg_loss (firstn n xs) = firstn n (avg_loss xs).
Proof.
  unfold avg_loss, ewm_mean.
  now rewrite diff_firstn, <- firstn_map, ewm_from_firstn.
Qed.

Lemma zip_with_firstn {A B C : Type} (f : A -> B -> C) (l : list A) :
  forall (m : list B) (n : nat),
    zip_with f (firstn n l) (firstn n m) = firstn n (zip_with f l m).
Proof.
  induction l as [|a l IH]; intros m n.
  - now rewrite !firstn_nil.
  - destruct n as [|n]; [reflexivity|].
    destruct m as [|b m]; [reflexivity|]. simpl. now rewrite IH.
Qed.

Lemma nth_firstn_lt {A : Type} (n i : nat) (l : list A) (d : A) :
  (i < n)%nat -> nth i (firstn n l) d = nth i l d.
Proof.
  intro H. rewrite nth_firstn.
  assert (E : (i <? n)%nat = true) by (now apply Nat.ltb_lt). now rewrite E.
Qed.

Lemma row_at_prefix (df : list Bar) (n i : nat) (b : Bar) :
  (i < n)%nat -> (i < length df)%nat ->
  row_at (firstn n df) i b = row_at df i b.
Proof.
  intros Hn Hl. unfold row_at. rewrite <- !firstn_map.
  rewrite !(rolling_prefix _ mean) by exact Hn.
  rewrite avg_gain_firstn, avg_loss_firstn, zip_with_firstn.
  rewrite (nth_firstn_lt n i (zip_with rsi_of _ _)) by exact Hn.
  assert (LA : forall (A B : list Q),
             length A = length df -> length B = length df ->
             nth i (zip_with fsub (rolling 14 maxQ (firstn n A))
                                  (rolling 14 minQ (firstn n B))) NaN
             = nth i (zip_with fsub (rolling 14 maxQ A) (rolling 14 minQ B))
                 NaN).
  { intros A B HA HB.
    rewrite !(zip_with_nth fsub _ _ i NaN NaN NaN);
      try (rewrite rolling_length; try rewrite length_firstn; lia).
    now rewrite !rolling_prefix by exact Hn. }
  rewrite LA by apply length_map. reflexivity.
Qed.

(** X8: no look-ahead.  Cutting the history after [n] bars and computing
    gives the first [n] rows of the computation on the whole history; so a
    row depends on the bars up to its own date only. *)
Theorem X8_no_look_ahead :
  (forall (df : list Bar) (n : nat),
      calculate_indicators (firstn n df) = firstn n (calculate_indicators df))
  /\
  (forall (df df' : list Bar) (i : nat),
      firstn (S i) df = firstn (S i) df' ->
      nth_error (calculate_indicators df) i
        = nth_error (calculate_indicators df') i).
Proof.
  assert (P : forall (df : list Bar) (n : nat),
             calculate_indicators (firstn n df)
               = firstn n (calculate_indicators df)).
  { intros df n. apply nth_error_ext. intro i. rewrite nth_error_firstn.
    destruct (i <? n)%nat eqn:E.
    - apply Nat.ltb_lt in E.
      destruct (nth_error df i) as [b|] eqn:Hb.
      + assert (Hb' : nth_error (firstn n df) i = Some b).
        { rewrite nth_error_firstn.
          assert (E' : (i <? n)%nat = true) by (now apply Nat.ltb_lt).
          now rewrite E'. }
        rewrite (calculate_indicators_row_at _ i b Hb').
        rewrite (calculate_indicators_row_at _ i b Hb).
        f_equal. apply row_at_prefix; [exact E|].
        apply nth_error_Some. congruence.
      + rewrite (calculate_indicators_none df i Hb).
        apply calculate_indicators_none. rewrite nth_error_firstn.
        now destruct (i <? n)%nat.
    - apply Nat.ltb_ge in E. apply calculate_indicators_none.
      apply nth_error_None. rewrite length_firstn. lia. }
  split; [exact P|].
  intros df df' i H.
  assert (Q1 : forall d : list Bar,
             nth_error (calculate_indicators d) i
               = nth_error (calculate_indicators (firstn (S i) d)) i).
  { intro d. rewrite P, nth_error_firstn.
    assert (E : (i <? S i)%nat = true) by (apply Nat.ltb_lt; lia).
    now rewrite E. }
  now rewrite (Q1 df), (Q1 df'), H.
Qed.

Lemma X8_no_look_ahead_witness :
  nth_error (calculate_indicators three_bars) 1
    = nth_error (calculate_indicators (firstn 2 three_bars)) 1.
Proof.
  apply (proj2 X8_no_look_ahead three_bars (firstn 2 three_bars) 1%nat).
  reflexivity.
Defined.

Lemma row_of_engine (df : list Bar) (i : nat) (row : IndicatorRow) :
  nth_error (calculate_indicators df) i = Some row ->
  nth_error df i = Some (bar row) /\ row = row_at df i (bar row).
Proof.
  intro H.
  destruct (nth_error df i) as [b|] eqn:Hb.
  - rewrite (calculate_indicators_row_at df i b Hb) in H.
    inversion H; subst row. split; reflexivity.
  - rewrite (calculate_indicators_none df i Hb) in H. discriminate H.
Qed.

Lemma fold_max_ge (tl : list Q) :
  forall m : Q,
    let r := fold_left (fun m y => if Qltb m y then y else m) tl m in
    m <= r /\ forall x, In x tl -> x <= r.
Proof.
  induction tl as [|y tl IH]; intros m; cbv zeta.
  - split; [apply Qle_refl|contradiction].
  - simpl. destruct (IH (if Qltb m y then y else m)) as [H1 H2].
    cbv zeta in H1, H2.
    destruct (Qltb m y) eqn:E.
    + apply Qltb_true in E. split.
      * apply Qle_trans with y; [now apply Qlt_le_weak|exact H1].
      * intros x [<-|Hx]; [exact H1|now apply H2].
    + apply Qltb_false in E. split; [exact H1|].
      intros x [<-|Hx]; [now apply Qle_trans with m|now apply H2].
Qed.

Lemma fold_min_le (tl : list Q) :
  forall m : Q,
    let r := fold_left (fun m y => if Qltb y m then y else m) tl m in
    r <= m /\ forall x, In x tl -> r <= x.
Proof.
  induction tl as [|y tl IH]; intros m; cbv zeta.
  - split; [apply Qle_refl|contradiction].
  - simpl. destruct (IH (if Qltb y m then y else m)) as [H1 H2].
    cbv zeta in H1, H2.
    destruct (Qltb y m) eqn:E.
    + apply Qltb_true in E. split.
      * apply Qle_trans with y; [exact H1|now apply Qlt_le_weak].
      * intros x [<-|Hx]; [exact H1|now apply H2].
    + apply Qltb_false in E. split; [exact H1|].
      intros x [<-|Hx]; [now apply Qle_trans with m|now apply H2].
Qed.

Lemma maxQ_ge (w : list Q) (x : Q) : In x w -> x <= maxQ w.
Proof.
  destruct w as [|x0 tl]; [contradiction|]. simpl.
  destruct (fold_max_ge tl x0) as [H1 H2].
  intros [<-|H]; [exact H1|now apply H2].
Qed.

Lemma minQ_le (w : list Q) (x : Q) : In x w -> minQ w <= x.
Proof.
  destruct w as [|x0 tl]; [contradiction|]. simpl.
  destruct (fold_min_le tl x0) as [H1 H2].
  intros [<-|H]; [exact H1|now apply H2].
Qed.

(** The row's own value is in its window. *)
Lemma in_window (k i : nat) (xs : list Q) (d : Q) :
  (0 < k)%nat -> (i < length xs)%nat ->
  In (nth i xs d) (lastn k (firstn (S i) xs)).
Proof.
  intros Hk Hi. unfold lastn.
  assert (L : length (firstn (S i) xs) = S i)
    by (rewrite length_firstn; lia).
  rewrite L. set (m := (S i - k)%nat).
  rewrite <- (nth_firstn_lt (S i) i xs d) by lia.
  replace i with (m + (i - m))%nat at 1 by (unfold m; lia).
  rewrite <- nth_skipn. apply nth_In. rewrite length_skipn, L.
  unfold m. lia.
Qed.

Lemma nth_map_bar (f : Bar -> Q) (df : list Bar) (i : nat) (b : Bar) :
  nth_error df i = Some b -> nth i (map f df) 0 = f b.
Proof.
  intro H. apply nth_error_nth. now rewrite nth_error_map, H.
Qed.

(** X10: the ATR column.  It is NaN on the first 13 rows; from the 14th row
    on it is a finite number, at least the range high - low of the row's own
    bar, hence not negative when that bar has low <= high. *)
Theorem X10_atr_range (df : list Bar) (i : nat) (row : IndicatorRow) :
  nth_error (calculate_indicators df) i = Some row ->
  if (14 <=? S i)%nat then
    exists a : Q,
      ATR row = Fin a /\
      high (bar row) - low (bar row) <= a /\
      (low (bar row) <= high (bar row) -> 0 <= a)
  else ATR row = NaN.
Proof.
  intro H. destruct (row_of_engine df i row H) as [Hb E].
  assert (L : (i < length df)%nat) by (apply nth_error_Some; congruence).
  assert (EA : ATR row
               = fsub (nth i (rolling 14 maxQ (map high df)) NaN)
                      (nth i (rolling 14 minQ (map low df)) NaN)).
  { rewrite E. unfold row_at. cbn [ATR]. apply zip_with_nth;
      now rewrite rolling_length, length_map. }
  rewrite EA, !rolling_nth by (now rewrite length_map).
  destruct (14 <=? S i)%nat eqn:K; [|reflexivity].
  eexists. split; [reflexivity|].
  rewrite Qred_correct.
  assert (Hh : high (bar row)
               <= maxQ (lastn 14 (firstn (S i) (map high df)))).
  { apply maxQ_ge. rewrite <- (nth_map_bar high df i (bar row) Hb).
    apply in_window; [lia|now rewrite length_map]. }
  assert (Hl : minQ (lastn 14 (firstn (S i) (map low df)))
               <= low (bar row)).
  { apply minQ_le. rewrite <- (nth_map_bar low df i (bar row) Hb).
    apply in_window; [lia|now rewrite length_map]. }
  split; [lra|intro; lra].
Qed.

Lemma X10_atr_range_witness :
  ATR (row_at three_bars 2 (flat_bar 2 12)) = NaN.
Proof.
  apply (X10_atr_range three_bars 2 (row_at three_bars 2 (flat_bar 2 12))).
  reflexivity.
Defined.

Lemma ewm_from_nonneg (a : Q) (xs : list Q) :
  0 < 1 - a ->
  (forall x, In x xs -> 0 <= x) ->
  forall (i : nat) (num den : Q),
    0 <= num -> 0 <= den -> 0 <= nth i (ewm_from a num den xs) 0.
Proof.
  intros Ha. induction xs as [|x tl IH]; intros Hx i num den Hn Hd.
  - destruct i; apply Qle_refl.
  - assert (Hx0 : 0 <= x) by (apply Hx; now left).
    assert (Hrn : 0 <= (1 - a) * num)
      by (apply Qmult_le_0_compat; [now apply Qlt_le_weak|exact Hn]).
    assert (Hrd : 0 <= (1 - a) * den)
      by (apply Qmult_le_0_compat; [now apply Qlt_le_weak|exact Hd]).
    assert (Hn' : 0 <= Qred (x + (1 - a) * num))
      by (rewrite Qred_correct; lra).
    assert (Hd' : 0 < Qred (1 + (1 - a) * den))
      by (rewrite Qred_correct; lra).
    destruct i as [|j]; cbn [nth ewm_from].
    + rewrite Qred_correct. apply Qle_shift_div_l; [exact Hd'|].
      now rewrite Qmult_0_l.
    + apply IH; [intros y Hy; apply Hx; now right|exact Hn'|].
      now apply Qlt_le_weak.
Qed.

Lemma rsi_of_bounds (g l : Q) :
  0 <= g -> 0 <= l ->
  rsi_of g l = NaN \/ exists r, rsi_of g l = Fin r /\ 0 <= r <= 100.
Proof.
  intros Hg Hl. destruct (Qzerob l) eqn:Zl.
  - apply Qzerob_true in Zl. rewrite (rsi_of_zero_loss g l Zl).
    destruct (Qzerob g); [now left|right].
    exists 100. split; [reflexivity|]. lra.
  - right.
    assert (Pl : 0 < l).
    { destruct (Qlt_le_dec 0 l) as [P|P]; [exact P|].
      assert (E : l == 0) by (now apply Qle_antisym).
      apply Qzerob_true in E. congruence. }
    set (q1 := Qred (g / l)).
    assert (H1 : 0 <= q1).
    { unfold q1. rewrite Qred_correct. apply Qle_shift_div_l; [exact Pl|].
      now rewrite Qmult_0_l. }
    set (q2 := Qred (1 + q1)).
    assert (H2 : 1 <= q2) by (unfold q2; rewrite Qred_correct; lra).
    assert (Z2 : Qzerob q2 = false).
    { destruct (Qzerob q2) eqn:E; [|reflexivity].
      apply Qzerob_true in E. lra. }
    set (q3 := Qred (100 / q2)).
    assert (H3 : 0 <= q3 <= 100).
    { unfold q3. rewrite Qred_correct. split.
      - apply Qle_shift_div_l; [lra|]. lra.
      - apply Qle_shift_div_r; [lra|]. lra. }
    exists (Qred (100 - q3)). split.
    + unfold rsi_of. cbn [fdiv]. rewrite Zl. cbn [fadd fdiv]. fold q1 q2.
      rewrite Z2. reflexivity.
    + rewrite Qred_correct. lra.
Qed.

(** X11: the RSI of every computed row is either NaN or a number between 0
    and 100. *)
Theorem X11_rsi_between_0_and_100 (df : list Bar) (row : IndicatorRow) :
  In row (calculate_indicators df) ->
  RSI row = NaN \/ exists r : Q, RSI row = Fin r /\ 0 <= r <= 100.
Proof.
  intro Hin. apply In_nth_error in Hin. destruct Hin as [i Hi].
  rewrite (rsi_row df i row Hi). apply rsi_of_bounds.
  - unfold avg_gain, ewm_mean. apply ewm_from_nonneg;
      try apply Qle_refl; [exact alpha_decay|].
    intros g Hg. apply in_map_iff in Hg. destruct Hg as [d [<- _]].
    apply gain_of_nonneg.
  - unfold avg_loss, ewm_mean. apply ewm_from_nonneg;
      try apply Qle_refl; [exact alpha_decay|].
    intros g Hg. apply in_map_iff in Hg. destruct Hg as [d [<- _]].
    apply loss_of_nonneg.
Qed.

Lemma X11_rsi_between_0_and_100_witness :
  RSI (row_at three_bars 2 (flat_bar 2 12)) = NaN \/
  exists r : Q, RSI (row_at three_bars 2 (flat_bar 2 12)) = Fin r /\
                0 <= r <= 100.
Proof.
  apply (X11_rsi_between_0_and_100 three_bars).
  right. right. left. reflexivity.
Defined.

Lemma mean_between (w : list Q) (lo hi : Q) :
  w <> [] -> (forall x, In x w -> lo <= x <= hi) -> lo <= mean w <= hi.
Proof.
  intros Hne H. unfold mean. rewrite Qred_correct.
  assert (U : sumQ w <= inject_Z (Z.of_nat (length w)) * hi)
    by (apply sumQ_upper; intros x Hx; now apply H).
  assert (D : inject_Z (Z.of_nat (length w)) * lo <= sumQ w)
    by (apply sumQ_lower; intros x Hx; now apply H).
  assert (P : 0 < inject_Z (Z.of_nat (length w))).
  { change 0 with (inject_Z 0). rewrite <- Zlt_Qlt.
    destruct w; [congruence|simpl; lia]. }
  split.
  - apply Qle_shift_div_l; [exact P|]. now rewrite Qmult_comm.
  - apply Qle_shift_div_r; [exact P|]. now rewrite Qmult_comm.
Qed.

Lemma rolling_mean_between (k : nat) (xs : list Q) (i : nat) (lo hi : Q) :
  (0 < k)%nat -> (i < length xs)%nat ->
  (forall x, In x xs -> lo <= x <= hi) ->
  if (k <=? S i)%nat then
    exists m, nth i (rolling k mean xs) NaN = Fin m /\ lo <= m <= hi
  else nth i (rolling k mean xs) NaN = NaN.
Proof.
  intros Hk Hi H. rewrite rolling_nth by exact Hi.
  destruct (k <=? S i)%nat eqn:E; [|reflexivity].
  apply Nat.leb_le in E. eexists. split; [reflexivity|].
  apply mean_between.
  - intro Z. apply (f_equal (@length Q)) in Z.
    rewrite lastn_length in Z by (rewrite length_firstn; lia).
    simpl in Z. lia.
  - intros y Hy. apply H. unfold lastn in Hy. apply skipn_incl in Hy.
    now apply firstn_incl in Hy.
Qed.

(** X12: the moving averages.  MA5, MA20 and MA60 are NaN exactly on the
    first 4, 19 and 59 rows; from then on each is a finite number that lies
    within any bounds [lo <= close <= hi] the closes of the frame obey. *)
Theorem X12_moving_averages (df : list Bar) (i : nat) (row : IndicatorRow)
    (lo hi : Q) :
  nth_error (calculate_indicators df) i = Some row ->
  (forall b, In b df -> lo <= close b <= hi) ->
  (if (5 <=? S i)%nat
   then exists m, MA5 row = Fin m /\ lo <= m <= hi else MA5 row = NaN) /\
  (if (20 <=? S i)%nat
   then exists m, MA20 row = Fin m /\ lo <= m <= hi else MA20 row = NaN) /\
  (if (60 <=? S i)%nat
   then exists m, MA60 row = Fin m /\ lo <= m <= hi else MA60 row = NaN).
Proof.
  intros H Hb. destruct (row_of_engine df i row H) as [Hn E].
  assert (L : (i < length (map close df))%nat).
  { rewrite length_map. apply nth_error_Some. congruence. }
  assert (Hx : forall x, In x (map close df) -> lo <= x <= hi).
  { intros x Hx. apply in_map_iff in Hx. destruct Hx as [b [<- Hin]].
    now apply Hb. }
  rewrite E. unfold row_at. cbn [MA5 MA20 MA60].
  repeat split; apply rolling_mean_between; auto; lia.
Qed.

Lemma X12_moving_averages_witness :
  (exists m, MA5 (row_at (rising_bars 6) 5 (flat_bar 5 6)) = Fin m /\
             1 <= m <= 6) /\
  MA20 (row_at (rising_bars 6) 5 (flat_bar 5 6)) = NaN /\
  MA60 (row_at (rising_bars 6) 5 (flat_bar 5 6)) = NaN.
Proof.
  apply (X12_moving_averages (rising_bars 6) 5
           (row_at (rising_bars 6) 5 (flat_bar 5 6)) 1 6).
  - reflexivity.
  - intros b Hb. simpl in Hb.
    repeat (destruct Hb as [<-|Hb]; [split; discriminate|]). contradiction.
Defined.

(* ===================================================================== *)
(** ** Steady rises and steady declines *)
(* ===================================================================== *)

(** X13: on strictly rising closes the RSI is 100 on every row from the
    second on; with at least 60 bars and an empty position the decision is
    therefore the advisory buy at the latest close, never the rounded
    primary buy. *)
Theorem X13_steady_rise (df : list Bar) :
  strictly_increasing (map close df) = true ->
  (forall (i : nat) (row : IndicatorRow),
      (1 <= i)%nat ->
      nth_error (calculate_indicators df) i = Some row ->
      RSI row = Fin 100) /\
  (forall (self : TradingSystem) (b : Bar),
      (60 <= length df)%nat ->
      position self = 0%Z ->
      iloc_last df = Ok b ->
      generate_daily_signal self (calculate_indicators df) =
        Ok (advisory buy (Fin (close b)))).
Proof.
  intro H. split.
  - intros i row Hi Hrow. now apply (rising_rsi_100 df i row).
  - intros self b Hlen Hp Hb. now apply rising_closes_advisory_buy.
Qed.

Lemma X13_steady_rise_witness :
  generate_daily_signal init (calculate_indicators (rising_bars 60)) =
    Ok (advisory buy (Fin 60)).
Proof.
  apply (proj2 (X13_steady_rise (rising_bars 60) eq_refl) init
           (flat_bar 59 60)).
  - vm_compute. lia.
  - reflexivity.
  - reflexivity.
Defined.

Lemma decreasing_opp (l : list Q) :
  strictly_decreasing l = true -> strictly_increasing (map Qopp l) = true.
Proof.
  induction l as [|x tl IH]; [reflexivity|].
  destruct tl as [|y tl]; [reflexivity|].
  change (strictly_decreasing (x :: y :: tl))
    with (Qltb y x && strictly_decreasing (y :: tl)).
  change (strictly_increasing (map Qopp (x :: y :: tl)))
    with (Qltb (- x) (- y) && strictly_increasing (map Qopp (y :: tl))).
  intro H. apply andb_true_iff in H. destruct H as [H1 H2].
  apply andb_true_iff. split; [|now apply IH].
  apply Qltb_true in H1. apply Qltb_true. lra.
Qed.

Lemma sumQ_opp (w : list Q) : sumQ (map Qopp w) == - sumQ w.
Proof.
  induction w as [|x w IH]; [reflexivity|].
  change (sumQ (map Qopp (x :: w))) with (- x + sumQ (map Qopp w)).
  change (sumQ (x :: w)) with (x + sumQ w). rewrite IH. ring.
Qed.

Lemma mean_opp (w : list Q) : mean (map Qopp w) == - mean w.
Proof.
  unfold mean. rewrite !Qred_correct, sumQ_opp, length_map.
  unfold Qdiv. ring.
Qed.

Lemma lastn_map {A B : Type} (f : A -> B) (k : nat) (l : list A) :
  lastn k (map f l) = map f (lastn k l).
Proof. unfold lastn. now rewrite length_map, skipn_map. Qed.

Lemma mean_lastn_gt (m n : nat) (l : list Q) :
  strictly_decreasing l = true ->
  (0 < m)%nat -> (m < n)%nat -> (n <= length l)%nat ->
  mean (lastn m l) < mean (lastn n l).
Proof.
  intros Hd Hm Hmn Hn.
  pose proof (strictly_increasing_sorted _ (decreasing_opp l Hd)) as Hs.
  assert (L : (n <= length (map Qopp l))%nat) by (now rewrite length_map).
  pose proof (mean_lastn_lt m n (map Qopp l) Hs Hm Hmn L) as M.
  rewrite !lastn_map, !mean_opp in M. lra.
Qed.

Lemma diff_from_falling (xs : list Q) :
  forall p : Q,
    strictly_decreasing (p :: xs) = true ->
    Forall (fun d => exists q, d = Some q /\ q < 0) (diff_from p xs).
Proof.
  induction xs as [|x tl IH]; intros p H; [constructor|].
  change (strictly_decreasing (p :: x :: tl))
    with (Qltb x p && strictly_decreasing (x :: tl)) in H.
  apply andb_true_iff in H. destruct H as [Hpx Htl].
  apply Qltb_true in Hpx. simpl. constructor.
  - exists (x - p). split; [reflexivity|lra].
  - now apply IH.
Qed.

Lemma falling_no_gain (xs : list Q) :
  strictly_decreasing xs = true ->
  forall g, In g (map gain_of (diff xs)) -> g == 0.
Proof.
  intros H g Hg. destruct xs as [|x tl]; [contradiction|].
  simpl in Hg. destruct Hg as [<-|Hg]; [reflexivity|].
  apply in_map_iff in Hg. destruct Hg as [d [<- Hd]].
  pose proof (diff_from_falling tl x H) as F. rewrite Forall_forall in F.
  destruct (F d Hd) as [q [-> Hq]]. simpl.
  assert (E : Qltb 0 q = false) by (apply Qltb_false; now apply Qlt_le_weak).
  rewrite E. reflexivity.
Qed.

Lemma falling_some_loss (xs : list Q) (i : nat) :
  strictly_decreasing xs = true ->
  (1 <= i)%nat -> (i < length xs)%nat ->
  Exists (fun l => 0 < l) (firstn (S i) (map loss_of (diff xs))).
Proof.
  intros H Hi Hlen.
  destruct xs as [|x [|y tl]]; simpl in Hlen; try lia.
  destruct i as [|j]; [lia|].
  pose proof (diff_from_falling (y :: tl) x H) as F.
  inversion F as [|d ds [q [Hq Hneg]] _]; subst.
  change (firstn (S (S j)) (map loss_of (diff (x :: y :: tl))))
    with (loss_of None :: loss_of (Some (y - x))
            :: firstn j (map loss_of (diff_from y tl))).
  apply Exists_cons_tl, Exists_cons_hd.
  injection Hq as Hq. simpl.
  assert (E : Qltb (y - x) 0 = true) by (apply Qltb_true; rewrite Hq; exact Hneg).
  rewrite E, Hq. lra.
Qed.

Lemma rsi_of_zero_gain (g l : Q) : g == 0 -> 0 < l -> rsi_of g l = Fin 0.
Proof.
  intros Hg Hl.
  assert (Zl : Qzerob l = false).
  { destruct (Qzerob l) eqn:E; [|reflexivity].
    apply Qzerob_true in E. lra. }
  assert (E : Qred (g / l) = 0).
  { change 0 with (Qred 0). apply Qred_complete. rewrite Hg.
    unfold Qdiv. ring. }
  unfold rsi_of. cbn [fdiv]. rewrite Zl, E. reflexivity.
Qed.

Lemma falling_rsi_0 (df : list Bar) (i : nat) (row : IndicatorRow) :
  strictly_decreasing (map close df) = true ->
  (1 <= i)%nat ->
  nth_error (calculate_indicators df) i = Some row ->
  RSI row = Fin 0.
Proof.
  intros H Hi Hrow.
  assert (L : (i < length (map close df))%nat).
  { rewrite length_map, <- calculate_indicators_length.
    apply nth_error_Some. congruence. }
  rewrite (rsi_row df i row Hrow). apply rsi_of_zero_gain.
  - unfold avg_gain, ewm_mean. apply ewm_from_zero; [reflexivity|].
    intros g Hin. apply firstn_incl in Hin.
    now apply (falling_no_gain (map close df) H).
  - unfold avg_loss, ewm_mean. apply ewm_from_pos.
    + exact alpha_decay.
    + apply Qle_refl.
    + apply Qle_refl.
    + intros l Hin. apply firstn_incl in Hin. apply in_map_iff in Hin.
      destruct Hin as [d [<- _]]. apply loss_of_nonneg.
    + now rewrite length_map, diff_length.
    + right. now apply falling_some_loss.
Qed.

(** X14: on strictly falling closes the RSI is 0 on every row from the
    second on; with at least 60 bars the latest row has MA5 < MA20 < MA60
    and the decision of the empty state is the advisory sell at the latest
    close. *)
Theorem X14_steady_decline (df : list Bar) :
  strictly_decreasing (map close df) = true ->
  (forall (i : nat) (row : IndicatorRow),
      (1 <= i)%nat ->
      nth_error (calculate_indicators df) i = Some row ->
      RSI row = Fin 0) /\
  (forall (self : TradingSystem) (b : Bar),
      (60 <= length df)%nat ->
      position self = 0%Z ->
      iloc_last df = Ok b ->
      exists latest,
        iloc_last (calculate_indicators df) = Ok latest /\
        trend_down latest = true /\
        generate_daily_signal self (calculate_indicators df) =
          Ok (advisory sell (Fin (close b)))).
Proof.
  intro H. split.
  - intros i row Hi Hrow. now apply (falling_rsi_0 df i row).
  - intros self b Hlen Hp Hb.
    assert (Hne : df <> []) by (intros ->; simpl in Hlen; lia).
    destruct (last_row df Hne) as [b' [row [Hb1 [Hrow [Hb' [Hnth Hbar]]]]]].
    assert (E : b' = b) by congruence. rewrite E in Hbar, Hb'.
    destruct (row_of_engine df _ row Hnth) as [_ ER].
    set (xs := map close df) in *.
    assert (Lx : length xs = length df) by (unfold xs; apply length_map).
    assert (H5 : MA5 row = Fin (mean (lastn 5 xs))).
    { rewrite ER. unfold row_at. cbn [MA5]. fold xs. rewrite <- Lx.
      apply rolling_mean_last; lia. }
    assert (H20 : MA20 row = Fin (mean (lastn 20 xs))).
    { rewrite ER. unfold row_at. cbn [MA20]. fold xs. rewrite <- Lx.
      apply rolling_mean_last; lia. }
    assert (H60 : MA60 row = Fin (mean (lastn 60 xs))).
    { rewrite ER. unfold row_at. cbn [MA60]. fold xs. rewrite <- Lx.
      apply rolling_mean_last; lia. }
    assert (L1 : mean (lastn 5 xs) < mean (lastn 20 xs))
      by (apply mean_lastn_gt; auto; lia).
    assert (L2 : mean (lastn 20 xs) < mean (lastn 60 xs))
      by (apply mean_lastn_gt; auto; lia).
    assert (TD : trend_down row = true).
    { unfold trend_down. rewrite H5, H20, H60. cbn [flt].
      apply andb_true_iff. split; now apply Qltb_true. }
    assert (TU : trend_up row = false).
    { unfold trend_up, fgt. rewrite H5, H20. cbn [flt].
      assert (F : Qltb (mean (lastn 20 xs)) (mean (lastn 5 xs)) = false)
        by (apply Qltb_false; now apply Qlt_le_weak).
      now rewrite F. }
    exists row. split; [exact Hrow|]. split; [exact TD|].
    rewrite (generate_flat self _ row Hrow Hp). cbv zeta.
    rewrite TU, Hbar. reflexivity.
Qed.

Lemma X14_steady_decline_witness :
  exists latest,
    iloc_last (calculate_indicators (falling_bars 60)) = Ok latest /\
    trend_down latest = true /\
    generate_daily_signal init (calculate_indicators (falling_bars 60)) =
      Ok (advisory sell (Fin 1)).
Proof.
  apply (proj2 (X14_steady_decline (falling_bars 60) eq_refl) init
           (flat_bar 59 1)).
  - vm_compute. lia.
  - reflexivity.
  - reflexivity.
Defined.

(* ===================================================================== *)
(** ** One run of the strategy: what is printed *)
(* ===================================================================== *)

Lemma generate_ok_nonempty (self : TradingSystem) (df : list Bar)
    (s : Signal) :
  generate_daily_signal self (calculate_indicators df) = Ok s ->
  exists b, iloc_last df = Ok b.
Proof.
  intro H. apply iloc_last_nonempty. intros ->. discriminate H.
Qed.

(** X15: a run in the empty state on a non-empty frame applies the decision
    and prints the rule, the day, the close, the instruction, the price, the
    stop and the target; the last [print] then fails on the missing
    ['reason'] key, and the handler prints that [KeyError].  The closing
    rule is never printed. *)
Theorem X15_run_in_empty_state (now : Z) (self : TradingSystem)
    (df : list Bar) (b : Bar) :
  iloc_last df = Ok b ->
  position self = 0%Z ->
  exists s sl tg,
    generate_daily_signal self (calculate_indicators df) = Ok s /\
    stop_loss s = Some sl /\ target s = Some tg /\
    run_daily_strategy now self (Ok df) =
      (execute_trade now self s,
       [Rule; TradeDay (date b); LatestClose (close b);
        Instruction (action s); ExecPrice (price s);
        StopLossLevel sl; TargetLevel tg; Failure (KeyError "reason")]).
Proof.
  intros Hb Hp.
  assert (Hne : df <> []) by (intros ->; discriminate).
  destruct (last_row df Hne) as [b' [row [_ [Hrow _]]]].
  assert (G : exists s sl tg,
             generate_daily_signal self (calculate_indicators df) = Ok s /\
             stop_loss s = Some sl /\ target s = Some tg /\
             reason s = None).
  { rewrite (generate_flat self _ row Hrow Hp). cbv zeta.
    destruct (trend_up row && flt (RSI row) (Fin 70));
      eexists; eexists; eexists; repeat split; reflexivity. }
  destruct G as [s [sl [tg [G [Hs [Ht Hr]]]]]].
  exists s, sl, tg. repeat split; try assumption.
  unfold run_daily_strategy, run_body. rewrite G, Hb, Hr, Hs, Ht. reflexivity.
Qed.

Lemma X15_run_in_empty_state_witness :
  exists s sl tg,
    generate_daily_signal init (calculate_indicators three_bars) = Ok s /\
    stop_loss s = Some sl /\ target s = Some tg /\
    run_daily_strategy 7 init (Ok three_bars) =
      (execute_trade 7 init s,
       [Rule; TradeDay 2; LatestClose 12;
        Instruction (action s); ExecPrice (price s);
        StopLossLevel sl; TargetLevel tg; Failure (KeyError "reason")]).
Proof.
  apply (X15_run_in_empty_state 7 init three_bars (flat_bar 2 12));
    reflexivity.
Defined.

(** X16: a run in a holding state with a recorded price on a non-empty frame
    completes: it applies the decision and prints the rule, the day, the
    close, the instruction, the price, the reason and the closing rule, with
    no stop or target line and no failure. *)
Theorem X16_run_in_holding_state (now : Z) (self : TradingSystem)
    (df : list Bar) (b : Bar) (ltp : fnum) :
  iloc_last df = Ok b ->
  position self <> 0%Z ->
  last_trade_price self = Some ltp ->
  exists s r,
    generate_daily_signal self (calculate_indicators df) = Ok s /\
    reason s = Some r /\
    run_daily_strategy now self (Ok df) =
      (execute_trade now self s,
       [Rule; TradeDay (date b); LatestClose (close b);
        Instruction (action s); ExecPrice (price s); Logic r; Rule]).
Proof.
  intros Hb Hp Ht.
  assert (Hne : df <> []) by (intros ->; discriminate).
  destruct (last_row df Hne) as [b' [row [_ [Hrow _]]]].
  assert (G : exists s r,
             generate_daily_signal self (calculate_indicators df) = Ok s /\
             reason s = Some r /\ stop_loss s = None /\ target s = None).
  { rewrite (generate_long self _ row ltp Hrow Hp Ht). cbv zeta.
    destruct (fgt _ _ || fgt _ _);
      [eexists; eexists; repeat split; reflexivity|].
    destruct (flt _ _); eexists; eexists; repeat split; reflexivity. }
  destruct G as [s [r [G [Hr [Hs Hg]]]]].
  exists s, r. repeat split; try assumption.
  unfold run_daily_strategy, run_body. rewrite G, Hb, Hr, Hs, Hg. reflexivity.
Qed.

Lemma X16_run_in_holding_state_witness :
  exists s r,
    generate_daily_signal (holding (Fin 10)) (calculate_indicators three_bars)
      = Ok s /\
    reason s = Some r /\
    run_daily_strategy 7 (holding (Fin 10)) (Ok three_bars) =
      (execute_trade 7 (holding (Fin 10)) s,
       [Rule; TradeDay 2; LatestClose 12;
        Instruction (action s); ExecPrice (price s); Logic r; Rule]).
Proof.
  apply (X16_run_in_holding_state 7 (holding (Fin 10)) three_bars
           (flat_bar 2 12) (Fin 10));
    [reflexivity|discriminate|reflexivity].
Defined.

(** X17: a run either fails before any trade, and then leaves the object
    untouched and prints the one failure line (the exception of the fetch
    or of the generator), or it applies exactly one decision, adding exactly
    one entry to the trade log. *)
Theorem X17_run_all_or_nothing (now : Z) (self : TradingSystem)
    (fetched : result (list Bar)) :
  (exists e,
      run_daily_strategy now self fetched = (self, [Failure e]) /\
      (fetched = Raise e \/
       exists df, fetched = Ok df /\
                  generate_daily_signal self (calculate_indicators df)
                    = Raise e)) \/
  (exists df s,
      fetched = Ok df /\
      generate_daily_signal self (calculate_indicators df) = Ok s /\
      fst (run_daily_strategy now self fetched) = execute_trade now self s /\
      length (trade_log (fst (run_daily_strategy now self fetched)))
        = S (length (trade_log self))).
Proof.
  destruct fetched as [df|e].
  - destruct (generate_daily_signal self (calculate_indicators df))
      as [s|e] eqn:G.
    + right. exists df, s. split; [reflexivity|]. split; [exact G|].
      destruct (generate_ok_nonempty self df s G) as [b Hb].
      assert (E : fst (run_daily_strategy now self (Ok df))
                  = execute_trade now self s).
      { unfold run_daily_strategy, run_body. rewrite G, Hb.
        destruct (reason s); reflexivity. }
      split; [exact E|].
      rewrite E, execute_trade_log, length_app. simpl. lia.
    + left. exists e. split; [|right; exists df; auto].
      unfold run_daily_strategy, run_body. rewrite G. reflexivity.
  - left. exists e. split; [reflexivity|now left].
Qed.

(* ===================================================================== *)
(** ** Levels of the decisions of the empty state *)
(* ===================================================================== *)

Lemma floor_bounds (q : Q) :
  inject_Z (Qfloor q) <= q /\ q < inject_Z (Qfloor q) + 1.
Proof.
  split; [apply Qfloor_le|].
  pose proof (Qlt_floor q) as H. rewrite inject_Z_plus in H. exact H.
Qed.

Lemma rint_cases (q : Q) :
  rint q = Qfloor q \/ rint q = (Qfloor q + 1)%Z.
Proof.
  unfold rint. destruct (Qcompare _ _); auto.
  destruct (Z.even _); auto.
Qed.

(** The nearest integer is at most one half away. *)
Lemma rint_near (q : Q) :
  - (1 # 2) <= inject_Z (rint q) - q <= 1 # 2.
Proof.
  destruct (floor_bounds q) as [L U]. unfold rint.
  set (f := Qfloor q) in *.
  assert (E1 : inject_Z (f + 1) == inject_Z f + 1)
    by (now rewrite inject_Z_plus).
  destruct (Qcompare_spec (q - inject_Z f) (1 # 2)) as [H|H|H].
  - destruct (Z.even f); [|rewrite E1]; split; lra.
  - split; lra.
  - rewrite E1. split; lra.
Qed.

Lemma rint_mono (a b : Q) : a <= b -> (rint a <= rint b)%Z.
Proof.
  intro H.
  pose proof (Qfloor_resp_le a b H) as F.
  destruct (Z.eq_dec (Qfloor a) (Qfloor b)) as [E|E].
  - destruct (floor_bounds a) as [La Ua]. destruct (floor_bounds b) as [Lb Ub].
    unfold rint. rewrite <- E in *. set (f := Qfloor a) in *.
    destruct (Qcompare_spec (a - inject_Z f) (1 # 2)) as [Ha|Ha|Ha];
      destruct (Qcompare_spec (b - inject_Z f) (1 # 2)) as [Hb|Hb|Hb];
      try destruct (Z.even f); try lia; exfalso; lra.
  - destruct (rint_cases a) as [-> | ->]; destruct (rint_cases b) as [-> | ->];
      lia.
Qed.

Lemma py_round_mono (a b : Q) (n : nat) :
  a <= b ->
  exists x y, py_round (Fin a) n = Fin x /\ py_round (Fin b) n = Fin y /\
              x <= y.
Proof.
  intro H. unfold py_round. set (p := inject_Z (10 ^ Z.of_nat n)).
  assert (Hp : 0 < p).
  { unfold p. change 0 with (inject_Z 0). rewrite <- Zlt_Qlt.
    apply Z.pow_pos_nonneg; lia. }
  eexists. eexists. split; [reflexivity|]. split; [reflexivity|].
  rewrite !Qred_correct.
  assert (M : (rint (a * p) <= rint (b * p))%Z).
  { apply rint_mono. apply Qmult_le_compat_r; [exact H|].
    now apply Qlt_le_weak. }
  apply Qmult_le_compat_r; [now rewrite <- Zle_Qle|].
  apply Qlt_le_weak. now apply Qinv_lt_0_compat.
Qed.

(** X18: in the empty state, when the close and the ATR of the latest row
    are not negative and its S1 is a number, the three levels of the
    decision are numbers in the order stop <= price <= target, for the
    rounded primary buy as well as for the advisory decision. *)
Theorem X18_levels_ordered (self : TradingSystem) (rows : list IndicatorRow)
    (latest : IndicatorRow) (a s1 : Q) :
  iloc_last rows = Ok latest ->
  position self = 0%Z ->
  0 <= close (bar latest) ->
  ATR latest = Fin a -> 0 <= a ->
  S1 latest = Fin s1 ->
  exists s p sl tg,
    generate_daily_signal self rows = Ok s /\
    price s = Fin p /\ stop_loss s = Some (Fin sl) /\
    target s = Some (Fin tg) /\
    sl <= p <= tg.
Proof.
  intros Hl Hp Hc Ha Ha0 Hs.
  rewrite (generate_flat self rows latest Hl Hp). cbv zeta.
  set (c := close (bar latest)) in *.
  destruct (trend_up latest && flt (RSI latest) (Fin 70)).
  - rewrite Ha, Hs.
    assert (E : exists e, py_min (fmul (Fin c) (Fin 0.995)) (Fin s1) = Fin e).
    { unfold py_min. destruct (flt _ _); eexists; reflexivity. }
    destruct E as [e ->]. cbn [fmul fsub fadd].
    assert (L1 : Qred (e - Qred (2 * a)) <= e)
      by (rewrite !Qred_correct; lra).
    assert (L2 : e <= Qred (e + Qred (3 * a)))
      by (rewrite !Qred_correct; lra).
    destruct (py_round_mono _ _ 2 L1) as [x [y [E1 [E2 M1]]]].
    destruct (py_round_mono _ _ 2 L2) as [y' [z [E2' [E3 M2]]]].
    assert (y' = y) by congruence. subst y'.
    eexists. exists y, x, z. split; [reflexivity|]. cbn [price stop_loss target].
    rewrite E1, E2, E3. repeat split; assumption.
  - eexists. eexists. eexists. eexists. split; [reflexivity|].
    unfold advisory. cbn [price stop_loss target fmul].
    split; [reflexivity|]. split; [reflexivity|]. split; [reflexivity|].
    rewrite !Qred_correct. split; lra.
Qed.

Lemma X18_levels_ordered_witness :
  exists s p sl tg,
    generate_daily_signal init [buy_scenario_row] = Ok s /\
    price s = Fin p /\ stop_loss s = Some (Fin sl) /\
    target s = Some (Fin tg) /\
    sl <= p <= tg.
Proof.
  apply (X18_levels_ordered init [buy_scenario_row] buy_scenario_row
           (Qred 0.5) (Qred 9.8)); try reflexivity; discriminate.
Defined.

(** X19: the price of the primary buy is a number of whole cents at most
    half a cent away from min(close*0.995, S1), whenever that minimum is a
    number. *)
Theorem X19_primary_price_half_cent (self : TradingSystem)
    (rows : list IndicatorRow) (latest : IndicatorRow) (e : Q) :
  iloc_last rows = Ok latest ->
  position self = 0%Z ->
  trend_up latest = true ->
  flt (RSI latest) (Fin 70) = true ->
  py_min (fmul (Fin (close (bar latest))) (Fin 0.995)) (S1 latest) = Fin e ->
  exists s p (cents : Z),
    generate_daily_signal self rows = Ok s /\
    action s = buy /\
    price s = Fin p /\
    p == inject_Z cents / 100 /\
    - (1 # 200) <= p - e <= 1 # 200.
Proof.
  intros Hl Hp Ht Hr He.
  rewrite (generate_flat self rows latest Hl Hp). cbv zeta.
  rewrite Ht, Hr, He. cbn [andb].
  eexists. eexists. exists (rint (e * 100)).
  split; [reflexivity|]. split; [reflexivity|]. cbn [price].
  split; [reflexivity|].
  change (inject_Z (10 ^ Z.of_nat 2)) with 100.
  split; [apply Qred_correct|].
  rewrite Qred_correct.
  pose proof (rint_near (e * 100)) as N.
  assert (D : inject_Z (rint (e * 100)) / 100 - e
              == (inject_Z (rint (e * 100)) - e * 100) * (1 # 100)) by field.
  rewrite D. split; lra.
Qed.

Lemma X19_primary_price_half_cent_witness :
  exists s p (cents : Z),
    generate_daily_signal init [odd_cent_row] = Ok s /\
    action s = buy /\
    price s = Fin p /\
    p == inject_Z cents / 100 /\
    - (1 # 200) <= p - Qred 9.95995 <= 1 # 200.
Proof.
  apply (X19_primary_price_half_cent init [odd_cent_row] odd_cent_row);
    reflexivity.
Defined.

(* ===================================================================== *)
(** ** The empty state on a steady rise *)
(* ===================================================================== *)

(** C5: for every bar sequence of at least 60 bars whose closes rise
    strictly, the latest row has MA5 >= MA20 >= MA60 (strictly, in fact, so
    the trend test holds) and the generator in the empty state emits a buy.
    The RSI < 70 test decides its form: the RSI of such a series is 100, the
    test fails, and the decision is the advisory buy at the latest close
    with stop close*0.98 and target close*1.03. *)
Theorem C5_rising_closes_buy (self : TradingSystem) (df : list Bar) :
  (60 <= length df)%nat ->
  strictly_increasing (map close df) = true ->
  position self = 0%Z ->
  exists b latest,
    iloc_last df = Ok b /\
    iloc_last (calculate_indicators df) = Ok latest /\
    fle (MA20 latest) (MA5 latest) = true /\
    fle (MA60 latest) (MA20 latest) = true /\
    trend_up latest = true /\
    RSI latest = Fin 100 /\
    flt (RSI latest) (Fin 70) = false /\
    generate_daily_signal self (calculate_indicators df) =
      Ok {| action := buy;
            price := Fin (close b);
            stop_loss := Some (fmul (Fin (close b)) (Fin 0.98));
            target := Some (fmul (Fin (close b)) (Fin 1.03));
            reason := None |}.
Proof.
  intros Hlen Hinc Hp.
  assert (Hne : df <> []) by (intros ->; simpl in Hlen; lia).
  destruct (last_row df Hne) as [b [row [Hb [Hrow [_ [Hnth _]]]]]].
  destruct (rising_trend_up df Hlen Hinc) as [latest [HL [F1 [F2 T]]]].
  assert (latest = row) by congruence. subst latest.
  assert (R : RSI row = Fin 100)
    by (apply (rising_rsi_100 df (length df - 1) row Hinc); [lia|exact Hnth]).
  exists b, row.
  split; [exact Hb|]. split; [exact Hrow|]. split; [exact F1|].
  split; [exact F2|]. split; [exact T|]. split; [exact R|].
  split; [rewrite R; reflexivity|].
  exact (rising_closes_advisory_buy self df b Hlen Hinc Hp Hb).
Qed.

Lemma C5_rising_closes_buy_witness :
  exists b latest,
    iloc_last (rising_bars 60) = Ok b /\
    iloc_last (calculate_indicators (rising_bars 60)) = Ok latest /\
    fle (MA20 latest) (MA5 latest) = true /\
    fle (MA60 latest) (MA20 latest) = true /\
    trend_up latest = true /\
    RSI latest = Fin 100 /\
    flt (RSI latest) (Fin 70) = false /\
    generate_daily_signal init (calculate_indicators (rising_bars 60)) =
      Ok {| action := buy;
            price := Fin (close b);
            stop_loss := Some (fmul (Fin (close b)) (Fin 0.98));
            target := Some (fmul (Fin (close b)) (Fin 1.03));
            reason := None |}.
Proof.
  apply (C5_rising_closes_buy init (rising_bars 60)).
  - vm_compute. lia.
  - vm_compute. reflexivity.
  - reflexivity.
Defined.

(* ===================================================================== *)
(** ** Which levels are rounded *)
(* ===================================================================== *)

Lemma py_round_two_decimals (e : fnum) : two_decimals_of e (py_round e 2).
Proof.
  destruct e as [| s | q]; try reflexivity.
  unfold two_decimals_of, whole_cents, py_round.
  change (inject_Z (10 ^ Z.of_nat 2)) with 100.
  set (p := Qred (inject_Z (rint (q * 100)) / 100)).
  assert (V : p == inject_Z (rint (q * 100)) / 100) by apply Qred_correct.
  split.
  - exists p, (rint (q * 100)). split; [reflexivity|exact V].
  - exists p. split; [reflexivity|].
    pose proof (rint_near (q * 100)) as N.
    assert (D : p - q == (inject_Z (rint (q * 100)) - q * 100) * (1 # 100))
      by (rewrite V; field).
    rewrite D. split; lra.
Qed.

Lemma not_whole_cents_10_40175 : ~ whole_cents (dbl 10.40175).
Proof.
  intros [p [cents [E H]]].
  assert (V : p = 41607 # 4000) by (inversion E; reflexivity).
  rewrite V in H. unfold Qeq, Qdiv, Qmult, Qinv, inject_Z in H.
  cbn in H. lia.
Qed.

(** C9: only the primary buy of the empty state carries rounded levels: its
    price, stop and target are min(close*0.995, S1), that minimum - 2*ATR
    and that minimum + 3*ATR, each brought to whole cents at most half a
    cent away (close 10.01, S1 10.00, ATR 0.5: entry 9.95995, emitted 9.96,
    8.96 and 11.46).  Every other decision carries plain products of the
    close: the advisory decision has price close, stop close*0.98 and target
    close*1.03; the decisions of the holding state have price close*1.005,
    close*0.995 or close and neither stop nor target.  Such a product need
    not be a number of whole cents (10.35*1.005 = 10.40175). *)
Theorem C9_only_primary_buy_rounded :
  (forall (self : TradingSystem) (rows : list IndicatorRow)
          (latest : IndicatorRow) (s : Signal),
      iloc_last rows = Ok latest ->
      generate_daily_signal self rows = Ok s ->
      let c := Fin (close (bar latest)) in
      if (position self =? 0)%Z then
        if trend_up latest && flt (RSI latest) (Fin 70) then
          let entry := py_min (fmul c (Fin 0.995)) (S1 latest) in
          action s = buy /\
          two_decimals_of entry (price s) /\
          exists sl tg,
            stop_loss s = Some sl /\ target s = Some tg /\
            two_decimals_of (fsub entry (fmul (Fin 2) (ATR latest))) sl /\
            two_decimals_of (fadd entry (fmul (Fin 3) (ATR latest))) tg
        else
          price s = c /\ stop_loss s = Some (fmul c (Fin 0.98)) /\
          target s = Some (fmul c (Fin 1.03))
      else
        (price s = fmul c (Fin 1.005) \/ price s = fmul c (Fin 0.995) \/
         price s = c) /\
        stop_loss s = None /\ target s = None)
  /\ (py_min (fmul (Fin 10.01) (Fin 0.995)) (S1 odd_cent_row) = dbl 9.95995 /\
      generate_daily_signal init [odd_cent_row] =
        Ok {| action := buy;
              price := dbl 9.96;
              stop_loss := Some (dbl 8.96);
              target := Some (dbl 11.46);
              reason := None |})
  /\ (exists s,
        generate_daily_signal (holding (dbl 10))
          [long_scenario_row 10.35 (dbl 60)] = Ok s /\
        price s = dbl 10.40175 /\ ~ whole_cents (price s)).
Proof.
  split; [|split].
  - intros self rows latest s Hl Hs c.
    destruct (Z.eq_dec (position self) 0) as [Hp|Hp].
    + rewrite (generate_flat self rows latest Hl Hp) in Hs. cbv zeta in Hs.
      rewrite Hp. simpl.
      destruct (trend_up latest && flt (RSI latest) (Fin 70)).
      * inversion Hs; subst s; clear Hs. cbv zeta. simpl.
        split; [reflexivity|]. split; [apply py_round_two_decimals|].
        eexists. eexists. split; [reflexivity|]. split; [reflexivity|].
        split; apply py_round_two_decimals.
      * inversion Hs; subst s; clear Hs. simpl. auto.
    + assert (Hb : (position self =? 0)%Z = false) by (now apply Z.eqb_neq).
      rewrite Hb.
      destruct (last_trade_price self) as [ltp|] eqn:Ht.
      * rewrite (generate_long self rows latest ltp Hl Hp Ht) in Hs.
        cbv zeta in Hs.
        destruct (fgt _ _ || fgt _ _).
        { inversion Hs; subst s. simpl. auto. }
        destruct (flt _ _); inversion Hs; subst s; simpl; auto.
      * unfold generate_daily_signal in Hs. rewrite Hl in Hs. simpl in Hs.
        rewrite Hb, Ht in Hs. discriminate.
  - split; reflexivity.
  - eexists. split; [reflexivity|]. split; [reflexivity|].
    exact not_whole_cents_10_40175.
Qed.

Lemma C9_only_primary_buy_rounded_witness :
  let entry := py_min (fmul (Fin 10.01) (Fin 0.995)) (S1 odd_cent_row) in
  two_decimals_of entry (dbl 9.96) /\
  two_decimals_of (fsub entry (fmul (Fin 2) (ATR odd_cent_row))) (dbl 8.96) /\
  two_decimals_of (fadd entry (fmul (Fin 3) (ATR odd_cent_row))) (dbl 11.46).
Proof.
  pose proof (proj1 C9_only_primary_buy_rounded init [odd_cent_row]
                odd_cent_row
                {| action := buy; price := dbl 9.96;
                   stop_loss := Some (dbl 8.96);
                   target := Some (dbl 11.46); reason := None |}
                eq_refl eq_refl) as H.
  destruct H as [_ [Hp [sl [tg [Hs [Ht [H1 H2]]]]]]].
  injection Hs as <-. injection Ht as <-.
  cbv zeta. split; [exact Hp|]. split; [exact H1|exact H2].
Defined.
